(** * kalite_gtk.cli: configuration resolution, command execution and
      settings persistence of the KA Lite control surface.

    The development is a shallow embedding of [kalite_gtk/cli.py].  Python
    strings are [string]s, dictionaries are [gmap string _], the file system,
    the logger, the standard output and the spawned subprocesses are fields
    of an explicit [World], and every operation that can raise is a
    computation in a small state-and-exception monad over that world.

    The module body runs at import time; it is the computation [resolve],
    which returns the module's globals.  Where Python 2 and Python 3
    differ (the exception of [os.path.join] on a value that is not a string,
    the white space of [str.split]) the embedding follows Python 3.  A pipe
    is modelled by the text that decoding its content gives; a dictionary is
    iterated in the order of [map_to_list], and no statement below depends
    on that order. *)

From Stdlib Require Import ZArith NArith String Ascii List Lia.
From stdpp Require Import base option list strings gmap pretty.

Local Open Scope Z_scope.
Local Open Scope string_scope.

(** ** Python string operations used by the module *)

Module PyStr.

(** [str.isspace] on one character: the characters that [str.split()],
    [str.strip()] and the regular-expression class [\s] treat as white
    space. *)
Definition is_space (c : ascii) : bool :=
  let n := N_of_ascii c in
  ((9 <=? n) && (n <=? 13) || (28 <=? n) && (n <=? 32)
   || (n =? 133) || (n =? 160))%N.

(** The class [\d]. *)
Definition is_digit (c : ascii) : bool :=
  let n := N_of_ascii c in ((48 <=? n) && (n <=? 57))%N.

Definition is_ascii_char (c : ascii) : bool := (N_of_ascii c <? 128)%N.

Fixpoint forallb_str (p : ascii → bool) (s : string) : bool :=
  match s with
  | "" => true
  | String c s' => p c && forallb_str p s'
  end.

Fixpoint drop (n : nat) (s : string) : string :=
  match n, s with
  | O, _ => s
  | S _, "" => ""
  | S n', String _ s' => drop n' s'
  end.

(** Longest prefix of [s] whose characters all satisfy [p]. *)
Fixpoint take_while (p : ascii → bool) (s : string) : string :=
  match s with
  | "" => ""
  | String c s' => if p c then String c (take_while p s') else ""
  end.

(** [sep.join(parts)] *)
Fixpoint join (sep : string) (parts : list string) : string :=
  match parts with
  | [] => ""
  | [p] => p
  | p :: rest => p +:+ sep +:+ join sep rest
  end.

(** [s.split(c)] for a one-character separator: every occurrence splits,
    empty fields are kept, and the empty string gives one empty field. *)
Fixpoint split_char (c : ascii) (s : string) : list string :=
  match s with
  | "" => [""]
  | String a s' =>
      if Ascii.eqb a c then "" :: split_char c s'
      else match split_char c s' with
           | h :: t => String a h :: t
           | [] => [String a ""]
           end
  end.

(** [s.split()]: the maximal runs of characters that are not white space. *)
Fixpoint split_ws (s : string) : list string :=
  match s with
  | "" => []
  | String a s' =>
      if is_space a then split_ws s'
      else match s' with
           | "" => [String a ""]
           | String b _ =>
               if is_space b then String a "" :: split_ws s'
               else match split_ws s' with
                    | h :: t => String a h :: t
                    | [] => [String a ""]
                    end
           end
  end.

Fixpoint lstrip (s : string) : string :=
  match s with
  | "" => ""
  | String a s' => if is_space a then lstrip s' else s
  end.

Fixpoint rstrip (s : string) : string :=
  match s with
  | "" => ""
  | String a s' =>
      match rstrip s' with
      | "" => if is_space a then "" else String a ""
      | r => String a r
      end
  end.

(** [s.strip()] *)
Definition strip (s : string) : string := rstrip (lstrip s).

(** [needle in hay] *)
Fixpoint contains (needle hay : string) : bool :=
  String.prefix needle hay ||
  match hay with
  | "" => false
  | String _ hay' => contains needle hay'
  end.

(** [int(digits)] for a string of decimal digits. *)
Fixpoint int_of_digits_from (acc : Z) (s : string) : Z :=
  match s with
  | "" => acc
  | String c s' =>
      int_of_digits_from (10 * acc + Z.of_N (N_of_ascii c - 48)) s'
  end.

Definition int_of_digits (s : string) : Z := int_of_digits_from 0 s.

(** [os.path.join(a, b)] for a relative second component [b]. *)
Definition path_join (a b : string) : string :=
  match a with
  | "" => b
  | _ => if String.prefix "/" (String.rev a) then a +:+ b
         else a +:+ "/" +:+ b
  end.

End PyStr.

(** ** The three regular expressions of the module *)

Module Re.
Import PyStr.

(** The match of [http://[^\s]+] anchored at the head of [s]: the literal
    followed by the longest non-empty run of characters that are not white
    space. *)
Definition match_url (s : string) : option string :=
  if String.prefix "http://" s then
    match take_while (λ c, negb (is_space c)) (drop 7 s) with
    | "" => None
    | body => Some ("http://" +:+ body)
    end
  else None.

(** [re.compile(r'(http://[^\s]+)').search(s)], then [group(0)]: the
    leftmost match. *)
Fixpoint search_url (s : string) : option string :=
  match match_url s with
  | Some m => Some m
  | None =>
      match s with
      | "" => None
      | String _ s' => search_url s'
      end
  end.

(** The digits matched by [--port=(?P<port>\d+)] anchored at the head of
    [s]. *)
Definition match_port (s : string) : option string :=
  if String.prefix "--port=" s then
    match take_while is_digit (drop 7 s) with
    | "" => None
    | digits => Some digits
    end
  else None.

(** [re.compile(r'--port=(?P<port>\d+)').search(s)], then
    [group('port')]. *)
Fixpoint search_port (s : string) : option string :=
  match match_port s with
  | Some d => Some d
  | None =>
      match s with
      | "" => None
      | String _ s' => search_port s'
      end
  end.

(** [re.sub(r'--port=\d+', repl, s)]: every non-overlapping match, from
    the left, is replaced by [repl].  [skip] counts the characters of the
    match just replaced that are still to be consumed.  The replacement is
    taken literally (it holds no backslash when it is built from an
    integer port). *)
Fixpoint sub_port_from (skip : nat) (repl s : string) : string :=
  match s with
  | "" => ""
  | String a s' =>
      match skip with
      | S k => sub_port_from k repl s'
      | O =>
          match match_port s with
          | Some digits =>
              repl +:+ sub_port_from (6 + String.length digits) repl s'
          | None => String a (sub_port_from 0 repl s')
          end
      end
  end.

Definition sub_port (repl s : string) : string := sub_port_from 0 repl s.

End Re.

Import PyStr Re.

(** ** Values, exceptions and the world *)

(** A Python value as it can sit in the settings dictionary: what
    [json.load] produces for a scalar member of the settings file.  An
    array or a nested object is carried only by its [str()] rendering, as
    the module never looks inside one; non-integer numbers are outside the
    model. *)
Inductive value :=
  | VNone
  | VBool (b : bool)
  | VInt (n : Z)
  | VStr (s : string)
  | VComposite (rendering : string).

(** [str(v)], as [str.format] inserts it. *)
Definition py_str (v : value) : string :=
  match v with
  | VNone => "None"
  | VBool true => "True"
  | VBool false => "False"
  | VInt n => pretty n
  | VStr s => s
  | VComposite r => r
  end.

(** [v == s] for a string [s]. *)
Definition eq_str (v : value) (s : string) : bool :=
  match v with
  | VStr t => String.eqb t s
  | _ => false
  end.

(** [v == n] for an integer [n] ([True == 1] and [False == 0] hold in
    Python). *)
Definition eq_int (v : value) (n : Z) : bool :=
  match v with
  | VInt m => Z.eqb m n
  | VBool b => Z.eqb (Z.b2z b) n
  | _ => false
  end.

(** What [json.load] finds in the user settings file. *)
Inductive document :=
  | DObject (members : gmap string value)
  | DOther (v : value).

Inductive settings_file :=
  | Malformed
  | Json (doc : document).

Inductive exn :=
  | KeyError
  | TypeError
  | AttributeError
  | IOError
  | OSError
  | UnicodeError.

Inductive outcome (A : Type) :=
  | Ok (a : A)
  | Raise (e : exn).
Arguments Ok {A} a.
Arguments Raise {A} e.

Inductive level := DEBUG | INFO | ERROR.

Inductive log_arg :=
  | LogValue (v : value)
  | LogText (s : string)
  | LogArgv (cmd : list value).

(** One call of the logger: the level, the format string and the arguments
    of [str.format]. *)
Record log_record := LogRecord {
  log_level : level;
  log_format : string;
  log_args : list log_arg
}.

(** One [subprocess.Popen] call: the argument vector, the value of
    [KALITE_HOME] added to the environment and the [shell] flag. *)
Record invocation := Invocation {
  argv : list string;
  kalite_home : string;
  use_shell : bool
}.

(** A terminated child: what it wrote and its exit status. *)
Record process := Process {
  p_stdout : string;
  p_stderr : string;
  p_status : Z
}.

(** The part of the machine that the module reads and writes. *)
Record World := {
  username_file : option string;       (* /etc/ka-lite/username *)
  options_file : option string;        (* /etc/ka-lite/server_options *)
  user_settings : option settings_file; (* ~/.kalite/ka-lite-gtk.json *)
  log : list log_record;
  printed : list (list value);
  spawned : list invocation
}.

(** The part of the machine that the module only reads. *)
Record Host := {
  getuser : string;                       (* getpass.getuser() *)
  getpwnam : string → option string;      (* pwd.getpwnam(u).pw_dir *)
  find_kalite : option string;            (* find_executable('kalite') *)
  find_pkexec : bool;                     (* find_executable('pkexec') *)
  KALITE_GTK_SETTINGS_FILE : string;
  popen : invocation → option process     (* None: the spawn fails *)
}.

(** Modelled from the spec: the validators of [kalite_gtk/validators.py],
    of which [cli.py] only imports the names.  Each takes a raw value and
    returns the normalized value, or fails with [ValidationError] ([None]). *)
Record Validators := {
  username : value → option string;
  port : value → option Z;
  command : value → option string
}.

(** ** Computations over the world *)

Definition M (A : Type) : Type := World → outcome A * World.

Definition ret {A} (a : A) : M A := λ w, (Ok a, w).

Definition raise {A} (e : exn) : M A := λ w, (Raise e, w).

Definition bind {A B} (m : M A) (k : A → M B) : M B :=
  λ w, match m w with
       | (Ok a, w') => k a w'
       | (Raise e, w') => (Raise e, w')
       end.

Notation "x <- m ;; k" := (bind m (λ x, k))
  (at level 100, m at next level, right associativity).
Notation "m ;;; k" := (bind m (λ _, k))
  (at level 100, right associativity).

Definition get_world : M World := λ w, (Ok w, w).

Definition logger (l : level) (fmt : string) (args : list log_arg) : M unit :=
  λ w, (Ok tt,
        {| username_file := username_file w; options_file := options_file w;
           user_settings := user_settings w;
           log := log w ++ [LogRecord l fmt args];
           printed := printed w; spawned := spawned w |}).

Definition print (args : list value) : M unit :=
  λ w, (Ok tt,
        {| username_file := username_file w; options_file := options_file w;
           user_settings := user_settings w; log := log w;
           printed := printed w ++ [args]; spawned := spawned w |}).

Definition record_spawn (i : invocation) : M unit :=
  λ w, (Ok tt,
        {| username_file := username_file w; options_file := options_file w;
           user_settings := user_settings w; log := log w;
           printed := printed w; spawned := spawned w ++ [i] |}).

Definition write_user_settings (f : settings_file) : M unit :=
  λ w, (Ok tt,
        {| username_file := username_file w; options_file := options_file w;
           user_settings := Some f; log := log w;
           printed := printed w; spawned := spawned w |}).

(** [d[k]], which raises [KeyError] on a missing key. *)
Definition subscript (d : gmap string value) (k : string) : M value :=
  match d !! k with
  | Some v => ret v
  | None => raise KeyError
  end.

(** ** The module *)

Definition DEBIAN_INIT_SCRIPT : string := "/etc/init.d/ka-lite".
Definition DEBIAN_USERNAME_FILE : string := "/etc/ka-lite/username".
Definition DEBIAN_HOME_FILE : string := "/etc/ka-lite/home".
Definition DEBIAN_OPTIONS_FILE : string := "/etc/ka-lite/server_options".

(** The double quote character of the shell commands. *)
Definition dquote : string := String "034"%char "".

(** The module's globals once it is imported. *)
Record Globals := {
  DEFAULT_USER : string;
  DEFAULT_PORT : Z;
  DEFAULT_HOME : string;
  debian_username : option string;
  settings : gmap string value
}.

(** Truth value of [debian_username]: [None] and the empty string are
    false. *)
Definition truthy (name : option string) : bool :=
  match name with
  | Some (String _ _) => true
  | _ => false
  end.

(** A [subprocess.Popen] object with both streams piped.  [returncode] is
    [None] until [poll], [wait] or [communicate] sets it. *)
Record Popen := {
  unread_stdout : string;
  unread_stderr : string;
  exit_status : Z;
  returncode : option Z
}.

Definition Popen_of (p : process) : Popen :=
  {| unread_stdout := p_stdout p; unread_stderr := p_stderr p;
     exit_status := p_status p; returncode := None |}.

(** [p.communicate()]: reads both streams to their end and waits for the
    child, which sets [returncode]. *)
Definition communicate (p : Popen) : string * string * Popen :=
  (unread_stdout p, unread_stderr p,
   {| unread_stdout := ""; unread_stderr := ""; exit_status := exit_status p;
      returncode := Some (exit_status p) |}).

(** The first line of [s], its terminator included, and what follows. *)
Fixpoint split_line (s : string) : string * string :=
  match s with
  | "" => ("", "")
  | String a s' =>
      if Ascii.eqb a "010" then (String a "", s')
      else let '(line, rest) := split_line s' in (String a line, rest)
  end.

(** [p.stdout.readline()] (decoded): the empty string at end of stream. *)
Definition readline (p : Popen) : string * Popen :=
  let '(line, rest) := split_line (unread_stdout p) in
  (line, {| unread_stdout := rest; unread_stderr := unread_stderr p;
            exit_status := exit_status p; returncode := returncode p |}).

(** [p.stderr.read()] (decoded) *)
Definition read_stderr (p : Popen) : string * Popen :=
  (unread_stderr p,
   {| unread_stdout := unread_stdout p; unread_stderr := "";
      exit_status := exit_status p; returncode := returncode p |}).

(** What [stream_kalite_command] yields: [(stdout line, stderr, returncode)],
    each possibly [None]. *)
Definition item : Type := option string * option string * option Z.

(** The generator object of [stream_kalite_command]: not yet started,
    suspended at the [yield] of the loop, suspended at the last [yield], or
    returned. *)
Inductive generator :=
  | Created (cmd : list value) (shell : bool)
  | Streaming (p : Popen)
  | Finishing
  | Returned.

(** [get_urls_from_status], its generator run to the end. *)
Definition get_urls_from_status (msg : string) (return_code : Z) : list string :=
  if negb (Z.eqb return_code 0) then []
  else omap search_url (split_ws msg).

Section Cli.

Context (V : Validators) (host : Host).

Definition SU_COMMAND : string :=
  if find_pkexec host then "pkexec --user {username}" else "gksudo -u {username}".
Definition SUDO_COMMAND : string :=
  if find_pkexec host then "pkexec" else "gksudo".

(** The dictionary [validate] of validator callbacks. *)
Definition validate (k : string) : option (value → option value) :=
  if decide (k = "user") then Some (λ v, VStr <$> username V v)
  else if decide (k = "port") then Some (λ v, VInt <$> port V v)
  else if decide (k = "command") then Some (λ v, VStr <$> command V v)
  else None.

(** Lines 51-70: the defaults taken from the Debian convention files.
    Returns [DEFAULT_USER], [DEFAULT_PORT] and [debian_username]. *)
Definition load_debian_defaults : M (string * Z * option string) :=
  w <- get_world ;;
  match username_file w with
  | None => ret (getuser host, 8008, None)
  | Some text =>
      let name := hd "" (split_char "010" text) in
      match name with
      | "" => ret (getuser host, 8008, Some name)
      | _ =>
          match username V (VStr name) with
          | Some user =>
              match options_file w with
              | Some current_server_options =>
                  match search_port current_server_options with
                  | Some digits => ret (user, int_of_digits digits, Some user)
                  | None => ret (user, 8008, Some user)
                  end
              | None => ret (user, 8008, Some user)
              end
          | None =>
              logger ERROR "Non-existing username in {}"
                     [LogText DEBIAN_USERNAME_FILE] ;;;
              ret (getuser host, 8008, Some name)
          end
      end
  end.

Definition get_kalite_home (user : value) : M string :=
  match user with
  | VStr u =>
      match getpwnam host u with
      | Some pw_dir => ret (path_join pw_dir ".kalite")
      | None => raise KeyError
      end
  | _ => raise TypeError
  end.

(** Lines 82-88 *)
Definition default_settings (user : string) (port : Z) (home : string)
  : gmap string value :=
  <["user" := VStr user]>
  (<["command" := from_option VStr VNone (find_kalite host)]>
  (<["content_root" := VStr (path_join home "content")]>
  (<["port" := VInt port]>
  (<["home" := VStr home]> ∅)))).

(** Lines 100-103: one turn of the loop over the loaded items. *)
Definition load_field (k : string) (v : value) (s : gmap string value)
  : M (gmap string value) :=
  match validate k with
  | Some check =>
      match check v with
      | Some v' => ret (<[k := v']> s)
      | None =>
          logger ERROR "Illegal value in {} for {}"
                 [LogText (KALITE_GTK_SETTINGS_FILE host); LogText k] ;;;
          ret s
      end
  | None => ret (<[k := v]> s)
  end.

(** Lines 99-103 *)
Fixpoint load_fields (items : list (string * value)) (s : gmap string value)
  : M (gmap string value) :=
  match items with
  | [] => ret s
  | (k, v) :: rest => s' <- load_field k v s ;; load_fields rest s'
  end.

(** Lines 104-109: the home folder and the content root, when the loaded
    settings did not specify them. *)
Definition recompute_paths (loaded s : gmap string value)
  : M (gmap string value) :=
  s <- match loaded !! "home" with
       | None =>
           user <- subscript s "user" ;;
           home <- get_kalite_home user ;;
           ret (<["home" := VStr home]> s)
       | Some _ => ret s
       end ;;
  match loaded !! "content_root" with
  | None =>
      print [VStr "SETTING CONTENT_ROOT"] ;;;
      home <- subscript s "home" ;;
      match home with
      | VStr h => ret (<["content_root" := VStr (path_join h "content")]> s)
      | _ => raise TypeError
      end
  | Some _ => ret s
  end.

(** Lines 95-109, on the value that [json.load] returned. *)
Definition load_document (debian : option string) (doc : document)
    (s : gmap string value) : M (gmap string value) :=
  loaded <- (if truthy debian then
               match doc with
               | DObject d =>
                   match d !! "user" with
                   | Some _ => ret (DObject (delete "user" d))
                   | None => raise KeyError
                   end
               | DOther _ => raise TypeError
               end
             else ret doc) ;;
  match loaded with
  | DOther _ => raise AttributeError
  | DObject d =>
      s <- load_fields (map_to_list d) s ;;
      recompute_paths d s
  end.

(** Lines 92-111 *)
Definition load_user_settings (debian : option string)
    (s : gmap string value) : M (gmap string value) :=
  w <- get_world ;;
  match user_settings w with
  | None => ret s
  | Some Malformed =>
      logger ERROR "Parsing error in {}"
             [LogText (KALITE_GTK_SETTINGS_FILE host)] ;;;
      ret s
  | Some (Json doc) => load_document debian doc s
  end.

(** The module body, lines 24-111: what importing the module computes. *)
Definition resolve : M Globals :=
  defaults <- load_debian_defaults ;;
  let '(user, port, debian) := defaults in
  home <- get_kalite_home (VStr user) ;;
  s <- load_user_settings debian (default_settings user port home) ;;
  ret {| DEFAULT_USER := user; DEFAULT_PORT := port; DEFAULT_HOME := home;
         debian_username := debian; settings := s |}.

Section Operations.

Variable G : Globals.

Definition get_command (kalite_command : string) : M (list value) :=
  binary <- subscript (settings G) "command" ;;
  ret (binary :: map VStr (split_char " " kalite_command)).

(** [shlex.split(SUDO_COMMAND) + cmd]; on a word without quotes or
    escapes [shlex.split] is [str.split]. *)
Definition sudo (cmd : list value) : list value :=
  map VStr (split_ws SUDO_COMMAND) ++ cmd.

(** [subprocess.Popen(cmd, stdout=PIPE, stderr=PIPE, env=env,
    shell=shell)]: the arguments and the environment must be strings. *)
Definition spawn (cmd : list value) (home : value) (shell : bool)
  : M Popen :=
  match mapM (λ v, match v with VStr a => Some a | _ => None end) cmd, home with
  | Some args, VStr h =>
      let i := Invocation args h shell in
      record_spawn i ;;;
      match popen host i with
      | Some child => ret (Popen_of child)
      | None => raise OSError
      end
  | _, _ => raise TypeError
  end.

Definition run_kalite_command (cmd : list value) (shell : bool)
  : M (string * string * option Z) :=
  home <- subscript (settings G) "home" ;;
  logger DEBUG "Running command: {}, KALITE_HOME={}"
         [LogArgv cmd; LogText (py_str home)] ;;;
  p <- spawn cmd home shell ;;
  let '(stdout, stderr, p) := communicate p in
  ret (stdout, stderr, returncode p).

(** The body of the loop of [stream_kalite_command] up to its next
    [yield], and the final [yield] when the sentinel is read. *)
Definition next_of_loop (p : Popen) : option item * generator :=
  let '(line, p) := readline p in
  match line with
  | "" =>
      let '(stderr, p) := read_stderr p in
      (Some (None, Some stderr, returncode p), Finishing)
  | _ => (Some (Some line, None, None), Streaming p)
  end.

(** [next(g)] on the generator of [stream_kalite_command]; [None] is
    [StopIteration]. *)
Definition next (g : generator) : M (option item * generator) :=
  match g with
  | Created cmd shell =>
      home <- subscript (settings G) "home" ;;
      logger DEBUG "Streaming command: {}, KALITE_HOME={}"
             [LogArgv cmd; LogText (py_str home)] ;;;
      p <- spawn cmd home shell ;;
      ret (next_of_loop p)
  | Streaming p => ret (next_of_loop p)
  | Finishing => ret (None, Returned)
  | Returned => ret (None, Returned)
  end.

(** A consumer that drains the generator, as [list(g)] does, in at most
    [fuel] calls of [next]; [None] when the fuel runs out first. *)
Fixpoint drain (fuel : nat) (g : generator) : M (option (list item)) :=
  match fuel with
  | O => ret None
  | S fuel' =>
      r <- next g ;;
      match r with
      | (None, _) => ret (Some [])
      | (Some x, g') =>
          rest <- drain fuel' g' ;;
          ret (cons x <$> rest)
      end
  end.

(** Lines 308-318: the new content of the options file. *)
Definition new_server_options (port : value) (current : string) : string :=
  let current := sub_port ("--port=" +:+ py_str port) current in
  let current := strip current in
  if negb (contains "--port" current)
  then current +:+ " --port=" +:+ py_str port
  else current.

Definition save_debian_settings : M unit :=
  user <- subscript (settings G) "user" ;;
  print [VStr (DEFAULT_USER G); user] ;;;
  if negb (eq_str user (DEFAULT_USER G)) then
    logger INFO
      ("Not saving debian settings for non-default user {}, install " +:+
       "system startup scripts first to make it the default")
      [LogValue user]
  else
    port <- subscript (settings G) "port" ;;
    port_commands <-
      (if negb (eq_int port (DEFAULT_PORT G)) then
         w <- get_world ;;
         match options_file w with
         | None => raise IOError
         | Some current_server_options =>
             ret ["echo " +:+ dquote
                  +:+ new_server_options port current_server_options
                  +:+ dquote +:+ " > " +:+ DEBIAN_OPTIONS_FILE]
         end
       else ret []) ;;
    home <- subscript (settings G) "home" ;;
    let home_commands :=
      if negb (eq_str home (DEFAULT_HOME G))
      then ["echo " +:+ dquote +:+ py_str home +:+ dquote
            +:+ " > " +:+ DEBIAN_HOME_FILE]
      else [] in
    let script := join " && " (port_commands ++ home_commands) in
    if forallb_str is_ascii_char script then
      r <- run_kalite_command
             (sudo [VStr "bash"; VStr "-c"; VStr script]) false ;;
      let '(_, stderr, code) := r in
      match code with
      | Some 0 => logger INFO "Successfully wrote new debian config" []
      | _ => logger ERROR "Error writing debian config: {}" [LogText stderr]
      end
    else raise UnicodeError.

Definition save_settings : M unit :=
  write_user_settings (Json (DObject (settings G))) ;;;
  save_debian_settings.

End Operations.

End Cli.

(** ** A sample machine, for the examples *)

Definition nl : string := String "010"%char "".

Definition sample_accounts (u : string) : option string :=
  if decide (u = "alice") then Some "/home/alice"
  else if decide (u = "kalite") then Some "/var/lib/kalite"
  else None.

(** Modelled from the spec: a validator set as section 4.1 describes it (the
    username resolves to an account, the port is an integer of the TCP
    range, the command is a non-empty string). *)
Definition sample_validators : Validators :=
  {| username := λ v,
       match v with
       | VStr u => match sample_accounts u with Some _ => Some u | None => None end
       | _ => None
       end;
     port := λ v,
       match v with
       | VInt n => if Z.leb 1 n && Z.leb n 65535 then Some n else None
       | _ => None
       end;
     command := λ v,
       match v with
       | VStr (String a c) => Some (String a c)
       | _ => None
       end |}.

(** A child that writes two lines, complains on stderr and exits with 3. *)
Definition sample_child : process :=
  {| p_stdout := "Starting" +:+ nl +:+ "Listening" +:+ nl;
     p_stderr := "deprecated option";
     p_status := 3 |}.

Definition sample_host : Host :=
  {| getuser := "alice";
     getpwnam := sample_accounts;
     find_kalite := Some "/usr/bin/kalite";
     find_pkexec := true;
     KALITE_GTK_SETTINGS_FILE := "/home/alice/.kalite/ka-lite-gtk.json";
     popen := λ _, Some sample_child |}.

(** The same machine without the managed binary on the search path. *)
Definition bare_host : Host :=
  {| getuser := "alice";
     getpwnam := sample_accounts;
     find_kalite := None;
     find_pkexec := true;
     KALITE_GTK_SETTINGS_FILE := "/home/alice/.kalite/ka-lite-gtk.json";
     popen := λ _, Some sample_child |}.

(** No convention file, no settings file, nothing logged or spawned yet. *)
Definition fresh_world : World :=
  {| username_file := None; options_file := None; user_settings := None;
     log := []; printed := []; spawned := [] |}.

Definition with_files (name options : option string)
    (user : option settings_file) : World :=
  {| username_file := name; options_file := options; user_settings := user;
     log := []; printed := []; spawned := [] |}.

Definition set_setting (k : string) (v : value) (G : Globals) : Globals :=
  {| DEFAULT_USER := DEFAULT_USER G; DEFAULT_PORT := DEFAULT_PORT G;
     DEFAULT_HOME := DEFAULT_HOME G; debian_username := debian_username G;
     settings := <[k := v]> (settings G) |}.

(** What importing the module gives on the sample machines. *)
Definition sample_globals : Globals :=
  {| DEFAULT_USER := "alice"; DEFAULT_PORT := 8008;
     DEFAULT_HOME := "/home/alice/.kalite"; debian_username := None;
     settings := default_settings sample_host "alice" 8008 "/home/alice/.kalite" |}.

Definition bare_globals : Globals :=
  {| DEFAULT_USER := "alice"; DEFAULT_PORT := 8008;
     DEFAULT_HOME := "/home/alice/.kalite"; debian_username := None;
     settings := default_settings bare_host "alice" 8008 "/home/alice/.kalite" |}.


(** A loaded settings object whose [port] is not a port. *)
Definition sample_loaded : gmap string value :=
  <["user" := VStr "kalite"]>
  (<["port" := VStr "eighty"]>
  (<["theme" := VStr "dark"]> ∅)).

(** ** Notions used in the statements *)

(** The value that line 101 assigns for the item [(k, v)]: [validate[k](v)]
    when [k] has a validator, [v] itself otherwise; [None] when the
    validator raises [ValidationError]. *)
Definition validated (V : Validators) (k : string) (v : value) : option value :=
  match validate V k with
  | Some check => check v
  | None => Some v
  end.

(** The record that line 103 logs for the field [k]. *)
Definition illegal_value (host : Host) (k : string) : log_record :=
  LogRecord ERROR "Illegal value in {} for {}"
            [LogText (KALITE_GTK_SETTINGS_FILE host); LogText k].

(** The world after the logger has emitted [records]. *)
Definition logged (records : list log_record) (w : World) : World :=
  {| username_file := username_file w; options_file := options_file w;
     user_settings := user_settings w; log := log w ++ records;
     printed := printed w; spawned := spawned w |}.

(** The effect of one turn of the loop of lines 99-103 on the settings. *)
Definition assign (V : Validators) (s : gmap string value)
    (kv : string * value) : gmap string value :=
  match validated V kv.1 kv.2 with
  | Some v' => <[kv.1 := v']> s
  | None => s
  end.

(** The keys of the items that their validator rejects. *)
Definition rejected (V : Validators) (items : list (string * value))
  : list string :=
  (filter (λ kv, validated V kv.1 kv.2 = None) items).*1.

(** Lines, each followed by its terminator. *)
Fixpoint unlines (lines : list string) : string :=
  match lines with
  | [] => ""
  | l :: rest => l +:+ nl +:+ unlines rest
  end.

Definition no_newline (l : string) : Prop :=
  forallb_str (λ c, negb (Ascii.eqb c "010")) l = true.

(** No character of [s] is white space. *)
Definition no_space (s : string) : Prop :=
  forallb_str (λ c, negb (is_space c)) s = true.

(** The three files have the same content in both worlds. *)
Definition same_files (w w' : World) : Prop :=
  username_file w' = username_file w ∧
  options_file w' = options_file w ∧
  user_settings w' = user_settings w.

(** A computation that writes none of the three files. *)
Definition keeps_files {A} (m : M A) : Prop :=
  ∀ w, same_files w (m w).2.


(** ** Splitting a command line *)

(** [shlex.split(s)]: the lexer of [shlex] in POSIX mode, with
    [whitespace_split] set and no comment characters. *)
Module Shlex.

Definition is_whitespace (c : ascii) : bool :=
  Ascii.eqb c " " || Ascii.eqb c "009" || Ascii.eqb c "013" || Ascii.eqb c "010".

Definition is_quote (c : ascii) : bool :=
  Ascii.eqb c "'" || Ascii.eqb c "034".

Definition is_escape (c : ascii) : bool := Ascii.eqb c "\".

(** The state of the lexer: between tokens, inside a word, inside a
    quotation opened by [q], or after an escape character, with the state
    to come back to (a word, or the quotation [q]). *)
Inductive state :=
  | Blank
  | Word
  | Quote (q : ascii)
  | Escape (back : option ascii).

Definition push (token : string) (c : ascii) : string :=
  token +:+ String c "".

(** The tokens of [s], read from state [st] with the token built so far;
    [quoted] tells whether that token saw a quotation.  [None] is the
    [ValueError] of an open quotation or of an escape at the end. *)
Fixpoint read (st : state) (quoted : bool) (token : string) (s : string)
  : option (list string) :=
  let emits := negb (String.eqb token "") || quoted in
  match s with
  | "" =>
      match st with
      | Blank => Some []
      | Word => if emits then Some [token] else Some []
      | Quote _ => None
      | Escape _ => None
      end
  | String c s' =>
      match st with
      | Blank =>
          if is_whitespace c then
            if emits then cons token <$> read Blank false "" s'
            else read Blank quoted token s'
          else if is_escape c then read (Escape None) quoted token s'
          else if is_quote c then read (Quote c) quoted token s'
          else read Word quoted (String c "") s'
      | Quote q =>
          if Ascii.eqb c q then read Word true token s'
          else if is_escape c && Ascii.eqb q "034"
          then read (Escape (Some q)) true token s'
          else read (Quote q) true (push token c) s'
      | Escape back =>
          match back with
          | Some q =>
              if negb (is_escape c) && negb (Ascii.eqb c q)
              then read (Quote q) quoted (push (push token "\") c) s'
              else read (Quote q) quoted (push token c) s'
          | None => read Word quoted (push token c) s'
          end
      | Word =>
          if is_whitespace c then
            if emits then cons token <$> read Blank false "" s'
            else read Blank quoted token s'
          else if is_quote c then read (Quote c) quoted token s'
          else if is_escape c then read (Escape None) quoted token s'
          else read Word quoted (push token c) s'
      end
  end.

Definition split (s : string) : option (list string) := read Blank false "" s.

(** A character that the lexer only ever appends to a word. *)
Definition is_plain (c : ascii) : bool :=
  negb (is_whitespace c) && negb (is_quote c) && negb (is_escape c).

End Shlex.

(** ** Operations that can also raise [ValueError] *)

Inductive raised :=
  | Exn (e : exn)
  | ValueError.

Inductive result (A : Type) :=
  | Returns (a : A)
  | Raises (r : raised).
Arguments Returns {A} a.
Arguments Raises {A} r.

Definition Op (A : Type) : Type := World → result A * World.

Definition op_ret {A} (a : A) : Op A := λ w, (Returns a, w).

Definition op_raise {A} (r : raised) : Op A := λ w, (Raises r, w).

Definition op_bind {A B} (m : Op A) (k : A → Op B) : Op B :=
  λ w, match m w with
       | (Returns a, w') => k a w'
       | (Raises r, w') => (Raises r, w')
       end.

Definition lift {A} (m : M A) : Op A :=
  λ w, match m w with
       | (Ok a, w') => (Returns a, w')
       | (Raise e, w') => (Raises (Exn e), w')
       end.

Notation "x <-- m ;; k" := (op_bind m (λ x, k))
  (at level 100, m at next level, right associativity).

(** [template.format(username=name)] for a template that holds the field
    [{username}] once, as [SU_COMMAND] does. *)
Fixpoint format_username (template name : string) : string :=
  match template with
  | "" => ""
  | String c rest =>
      if String.prefix "{username}" template then name +:+ PyStr.drop 10 template
      else String c (format_username rest name)
  end.

(** The streaming operations of the module. *)
Inductive operation := Start | Stop | Restart.

(** The generator object of [start], [stop] or [restart]: not yet started,
    relaying the generator of [stream_kalite_command], or returned. *)
Inductive relay :=
  | Unstarted (op : operation)
  | Relaying (g : generator)
  | Ended.

Definition relayed (step : option item * generator) : option item * relay :=
  match step with
  | (Some x, g) => (Some x, Relaying g)
  | (None, _) => (None, Ended)
  end.

Section Commands.

Context (host : Host) (G : Globals).

(** Lines 118-123 *)
Definition conditional_sudo (cmd : list value) : Op (list value) :=
  user <-- lift (subscript (settings G) "user") ;;
  if negb (eq_str user (getuser host)) then
    match Shlex.split (format_username (SU_COMMAND host) (py_str user)) with
    | Some prefix => op_ret (map VStr prefix ++ cmd)%list
    | None => op_raise ValueError
    end
  else op_ret cmd.

(** The argument of [stream_kalite_command] in lines 230-232, 241 and
    250-252. *)
Definition operation_argv (op : operation) : Op (list value) :=
  match op with
  | Start =>
      cmd <-- lift (get_command G "start") ;;
      port <-- lift (subscript (settings G) "port") ;;
      conditional_sudo (cmd ++ [VStr ("--port=" +:+ py_str port)])%list
  | Stop =>
      cmd <-- lift (get_command G "stop") ;;
      conditional_sudo cmd
  | Restart =>
      cmd <-- lift (get_command G "restart") ;;
      port <-- lift (subscript (settings G) "port") ;;
      conditional_sudo (cmd ++ [VStr ("--port=" +:+ py_str port)])%list
  end.

(** [next(g)] on the generator of [start], [stop] or [restart]: the first
    call builds the command and starts the inner generator, every call
    relays one item of it. *)
Definition relay_next (r : relay) : Op (option item * relay) :=
  match r with
  | Unstarted op =>
      cmd <-- operation_argv op ;;
      step <-- lift (next host G (Created cmd false)) ;;
      op_ret (relayed step)
  | Relaying g =>
      step <-- lift (next host G g) ;;
      op_ret (relayed step)
  | Ended => op_ret (None, Ended)
  end.

(** A consumer that drains the generator in at most [fuel] calls. *)
Fixpoint relay_drain (fuel : nat) (r : relay) : Op (option (list item)) :=
  match fuel with
  | O => op_ret None
  | S fuel' =>
      step <-- relay_next r ;;
      match step with
      | (None, _) => op_ret (Some [])
      | (Some x, r') =>
          rest <-- relay_drain fuel' r' ;;
          op_ret (cons x <$> rest)
      end
  end.

(** Lines 197-216 *)
Definition install : M (string * string * option Z) :=
  run_kalite_command host G
    (sudo host [VStr "bash"; VStr "-c"; VStr "update-rc.d ka-lite defaults"])
    false.

(** Lines 219-222 *)
Definition remove : Op (string * string * option Z) :=
  match Shlex.split "update-rc.d -f ka-lite remove" with
  | Some args => lift (run_kalite_command host G (sudo host (map VStr args)) false)
  | None => op_raise ValueError
  end.

(** Lines 256-261 *)
Definition diagnose : M (string * string * option Z) :=
  cmd <- get_command G "diagnose" ;;
  run_kalite_command host G cmd false.

(** Lines 264-270 *)
Definition status : M (string * option Z) :=
  cmd <- get_command G "status" ;;
  r <- run_kalite_command host G cmd false ;;
  let '(_, err, code) := r in
  ret (err, code).

End Commands.

(** A computation that writes none of the three files and spawns nothing. *)
Definition quiet {A} (m : M A) : Prop :=
  ∀ w, same_files w (m w).2 ∧ spawned (m w).2 = spawned w.

(** The five keys of the settings dictionary. *)
Definition settings_keys : list string :=
  ["user"; "command"; "content_root"; "port"; "home"].

(** A machine on which the target user [kalite] is not the invoking user. *)
Definition kalite_globals : Globals :=
  set_setting "user" (VStr "kalite") sample_globals.

(** A machine whose invoking user has no account. *)
Definition ghost_host : Host :=
  {| getuser := "ghost";
     getpwnam := sample_accounts;
     find_kalite := Some "/usr/bin/kalite";
     find_pkexec := false;
     KALITE_GTK_SETTINGS_FILE := "/home/ghost/.kalite/ka-lite-gtk.json";
     popen := λ _, None |}.

(** * Properties *)

(** ** Comparisons and strings *)



Lemma sudo_prefix (host : Host) (cmd : list value) :
  sudo host cmd = VStr (SUDO_COMMAND host) :: cmd.
Proof. unfold sudo, SUDO_COMMAND. by destruct (find_pkexec host). Qed.

Lemma mapM_strings (args : list string) :
  mapM (λ v, match v with VStr a => Some a | _ => None end) (map VStr args)
  = Some args.
Proof.
  induction args as [|a args IH]; [done|].
  simpl. rewrite IH. done.
Qed.

(** ** Status text mining *)

(** C7: on the status text of a running server and exit code 0 the only
    match is the URL, and with any other exit code nothing is produced,
    whatever the text. *)
Theorem get_urls_from_status_spec :
  get_urls_from_status "Server running at http://127.0.0.1:8008/" 0
  = ["http://127.0.0.1:8008/"]
  ∧ ∀ (msg : string) (return_code : Z),
      return_code ≠ 0 → get_urls_from_status msg return_code = [].
Proof.
  split; [reflexivity|].
  intros msg code Hcode. unfold get_urls_from_status.
  destruct (Z.eqb_spec code 0); [contradiction | reflexivity].
Qed.

Lemma get_urls_from_status_spec_witness :
  1 ≠ 0 ∧ get_urls_from_status "kalite is not running" 1 = [].
Proof.
  split; [lia|]. apply (proj2 get_urls_from_status_spec). lia.
Defined.

(** ** Command building *)

(** C2, as the code behaves: [get_command] never fails.  When the managed
    binary was not resolved it returns the vector whose first element is
    the absent value, followed by the tokens of the logical command. *)
Theorem get_command_absent_binary (G : Globals) (kalite_command : string) (w : World) :
  settings G !! "command" = Some VNone →
  get_command G kalite_command w
  = (Ok (VNone :: map VStr (split_char " " kalite_command)), w).
Proof.
  intros Hc. unfold get_command, bind, subscript. rewrite Hc. reflexivity.
Qed.

Lemma get_command_absent_binary_witness :
  settings bare_globals !! "command" = Some VNone ∧
  get_command bare_globals "start" fresh_world
  = (Ok (VNone :: map VStr (split_char " " "start")), fresh_world).
Proof.
  split; [reflexivity|].
  apply (get_command_absent_binary bare_globals "start" fresh_world).
  reflexivity.
Defined.

(** C2, as stated, fails: on the machine without the managed binary the
    module resolves [command] to the absent value, and building the command
    [start] then returns a vector instead of failing. *)
Lemma get_command_absent_binary_counterexample :
  resolve sample_validators bare_host fresh_world = (Ok bare_globals, fresh_world) ∧
  settings bare_globals !! "command" = Some VNone ∧
  ¬ (∃ e w, get_command bare_globals "start" fresh_world = (Raise e, w)) ∧
  get_command bare_globals "start" fresh_world
  = (Ok [VNone; VStr "start"], fresh_world).
Proof.
  split; [reflexivity|]. split; [reflexivity|]. split; [|reflexivity].
  intros (e & w & Hraise). discriminate Hraise.
Qed.

(** ** Settings persistence *)

Section Persistence.

Context (host : Host) (G : Globals).



(** When the port is to be written and the options file does not exist,
    [save_settings] raises at the [open] of line 309. *)
Lemma save_settings_missing_options (w : World) (port : value) :
  settings G !! "user" = Some (VStr (DEFAULT_USER G)) →
  settings G !! "port" = Some port →
  eq_int port (DEFAULT_PORT G) = false →
  options_file w = None →
  (save_settings host G w).1 = Raise IOError.
Proof.
  intros Huser Hport Hne Hfile.
  unfold save_settings, save_debian_settings, bind, write_user_settings,
    subscript, get_world.
  rewrite Huser, Hport. simpl.
  rewrite Hne, String.eqb_refl. simpl. rewrite Hfile. reflexivity.
Qed.

End Persistence.



(** C4: the import resolved the defaults on a machine without any
    convention file; the port is then changed to 9000 and saved.  The
    options file is opened without a check that it exists, and the save
    ends in [IOError]. *)
Theorem save_settings_raises_without_options_file :
  resolve sample_validators sample_host fresh_world = (Ok sample_globals, fresh_world) ∧
  (save_settings sample_host (set_setting "port" (VInt 9000) sample_globals)
     fresh_world).1 = Raise IOError.
Proof.
  split; [reflexivity|].
  apply (save_settings_missing_options _ _ _ (VInt 9000)); reflexivity.
Qed.


(** C3: the username file names the account [kalite], which is valid, and
    the user settings file is the object with the single member [port]: the
    import ends in [KeyError], raised by the [del] of line 98. *)
Theorem resolve_raises_without_user_member :
  username sample_validators (VStr "kalite") = Some "kalite" ∧
  (resolve sample_validators sample_host
     (with_files (Some ("kalite" +:+ nl)) None
                 (Some (Json (DObject {["port" := VInt 9000]}))))).1
  = Raise KeyError.
Proof. split; vm_compute; reflexivity. Qed.

(** ** Streaming execution *)

Lemma split_line_terminated (l rest : string) :
  no_newline l → split_line (l +:+ nl +:+ rest) = (l +:+ nl, rest).
Proof.
  unfold no_newline. induction l as [|a l IH]; simpl; [done|].
  intros [Ha Hl]%andb_true_iff. apply negb_true_iff in Ha.
  rewrite Ha, (IH Hl). reflexivity.
Qed.

Lemma terminated_line_not_empty (l : string) : l +:+ nl ≠ "".
Proof. by destruct l. Qed.

Section Streaming.

Context (host : Host) (G : Globals).

(** From inside the loop: one tuple per line still unread, then the final
    tuple, whose third component is the [returncode] attribute as it
    stands. *)
Lemma drain_streaming (lines : list string) :
  ∀ (p : Popen) (w : World),
    Forall no_newline lines →
    unread_stdout p = unlines lines →
    drain host G (2 + length lines) (Streaming p) w
    = (Ok (Some (((λ l, (Some (l +:+ nl), None, None)) <$> lines)
                 ++ [(None, Some (unread_stderr p), returncode p)])%list), w).
Proof.
  induction lines as [|l lines IH]; intros p w Hlines Hout.
  - simpl in Hout. cbn [length Nat.add drain]. unfold bind, next, ret.
    unfold next_of_loop, readline. rewrite Hout. reflexivity.
  - apply Forall_cons in Hlines as [Hl Hlines].
    change (2 + length (l :: lines))%nat with (S (2 + length lines)).
    cbn [drain]. unfold bind at 1. unfold next, ret.
    unfold next_of_loop, readline. rewrite Hout. cbn [unlines].
    rewrite (split_line_terminated _ _ Hl).
    destruct (l +:+ nl) as [|a line] eqn:Hline;
      [by apply terminated_line_not_empty in Hline|].
    unfold bind. rewrite IH by done. simpl. rewrite Hline. reflexivity.
Qed.

(** The first [next] runs the prologue of the generator (the debug record
    and the [Popen] call) and then enters the loop. *)
Lemma drain_created (fuel : nat) (args : list string) (shell : bool)
    (home : string) (child : process) (w : World) :
  settings G !! "home" = Some (VStr home) →
  popen host (Invocation args home shell) = Some child →
  ∃ w', drain host G fuel (Created (map VStr args) shell) w
        = drain host G fuel (Streaming (Popen_of child)) w'
        ∨ fuel = O.
Proof.
  intros Hhome Hchild. destruct fuel as [|fuel]; [by exists w; right|].
  eexists. left. cbn [drain].
  unfold bind at 1 3. unfold next, spawn, subscript.
  rewrite Hhome. unfold bind at 1. cbn [ret].
  unfold bind at 1. cbn [logger]. rewrite mapM_strings.
  unfold bind at 1. cbn [record_spawn]. rewrite Hchild. cbn [ret].
  reflexivity.
Qed.

(** The whole generator on a child that writes [N] terminated lines: [N]
    line tuples and one final tuple, which carries the captured stderr and,
    for every exit status of the child, an absent return code: nothing
    between the [Popen] call and the last [yield] waits for the child. *)
Lemma stream_kalite_command_lines (args : list string) (shell : bool)
    (home : string) (child : process) (lines : list string) (w : World) :
  settings G !! "home" = Some (VStr home) →
  popen host (Invocation args home shell) = Some child →
  Forall no_newline lines →
  p_stdout child = unlines lines →
  (drain host G (2 + length lines) (Created (map VStr args) shell) w).1
  = Ok (Some (((λ l, (Some (l +:+ nl), None, None)) <$> lines)
              ++ [(None, Some (p_stderr child), None)])%list).
Proof.
  intros Hhome Hchild Hlines Hout.
  destruct (drain_created (2 + length lines) args shell home child w Hhome Hchild)
    as [w' [Heq|Hfuel]]; [|discriminate Hfuel].
  rewrite Heq, drain_streaming by done. reflexivity.
Qed.

End Streaming.

(** C1: the child of the sample machine writes two terminated lines,
    complains on stderr and exits with status 3.  Draining the generator
    gives the two line tuples and one final tuple with the whole stderr, but
    the return code of that tuple is [None], not 3. *)
Theorem stream_kalite_command_loses_exit_code :
  p_status sample_child = 3 ∧
  (drain sample_host sample_globals 4
     (Created [VStr "/usr/bin/kalite"; VStr "start"] false) fresh_world).1
  = Ok (Some [(Some ("Starting" +:+ nl), None, None);
              (Some ("Listening" +:+ nl), None, None);
              (None, Some "deprecated option", None)]).
Proof. split; reflexivity. Qed.

(** ** The world under the logger *)

Lemma logger_logged (l : level) (fmt : string) (args : list log_arg) (w : World) :
  logger l fmt args w = (Ok tt, logged [LogRecord l fmt args] w).
Proof. reflexivity. Qed.

Lemma logged_nil (w : World) : logged [] w = w.
Proof. destruct w. unfold logged. simpl. by rewrite app_nil_r. Qed.

Lemma logged_app (a b : list log_record) (w : World) :
  logged b (logged a w) = logged (a ++ b)%list w.
Proof. unfold logged. simpl. by rewrite app_assoc. Qed.

(** ** The loop over the loaded items *)

Section Loading.

Context (V : Validators) (host : Host).

Lemma validated_no_validator (k : string) (v : value) :
  k ≠ "user" → k ≠ "port" → k ≠ "command" → validated V k v = Some v.
Proof.
  intros Hu Hp Hc. unfold validated, validate.
  repeat case_decide; done.
Qed.

Lemma load_field_assign (k : string) (v : value) (s : gmap string value) (w : World) :
  load_field V host k v s w
  = (Ok (assign V s (k, v)),
     logged (illegal_value host <$> rejected V [(k, v)]) w).
Proof.
  assert (validated V k v
          = match validate V k with Some check => check v | None => Some v end)
    as Hdef by reflexivity.
  unfold load_field, assign, rejected. simpl.
  destruct (validate V k) as [check|].
  - destruct (check v) as [v'|] eqn:Hv; rewrite Hdef.
    + rewrite filter_cons_False, filter_nil by (simpl; congruence).
      simpl. by rewrite logged_nil.
    + rewrite filter_cons_True, filter_nil by done. reflexivity.
  - rewrite Hdef, filter_cons_False, filter_nil by (simpl; congruence).
    simpl. by rewrite logged_nil.
Qed.

(** The loop never raises: it is a left fold of [assign] over the items,
    and it logs one record for each rejected item. *)
Lemma load_fields_fold (items : list (string * value)) :
  ∀ (s : gmap string value) (w : World),
    load_fields V host items s w
    = (Ok (foldl (assign V) s items),
       logged (illegal_value host <$> rejected V items) w).
Proof.
  induction items as [|[k v] items IH]; intros s w.
  - simpl. unfold ret. by rewrite logged_nil.
  - cbn [load_fields foldl]. unfold bind.
    rewrite load_field_assign, IH, logged_app.
    unfold rejected. rewrite <- fmap_app, <- fmap_app.
    by rewrite <- filter_app.
Qed.

(** What the settings hold after the loop, key by key. *)
Lemma foldl_assign_lookup (items : list (string * value)) :
  ∀ (s : gmap string value) (k : string),
    NoDup items.*1 →
    foldl (assign V) s items !! k
    = match (list_to_map items : gmap string value) !! k with
      | Some v => from_option Some (s !! k) (validated V k v)
      | None => s !! k
      end.
Proof.
  induction items as [|[k1 v1] items IH]; intros s k Hdup; [done|].
  apply NoDup_cons in Hdup as [Hk1 Hdup].
  cbn [foldl list_to_map foldr]. rewrite IH by done.
  destruct (decide (k = k1)) as [->|Hne].
  - simpl. rewrite lookup_insert_eq.
    rewrite (not_elem_of_list_to_map_1 _ _ Hk1).
    unfold assign. simpl. destruct (validated V k1 v1) as [v'|]; simpl.
    + by rewrite lookup_insert_eq.
    + done.
  - simpl. rewrite lookup_insert_ne by done.
    assert (assign V s (k1, v1) !! k = s !! k) as ->; [|done].
    unfold assign. simpl. destruct (validated V k1 v1); [|done].
    by rewrite lookup_insert_ne.
Qed.

Lemma load_fields_lookup (d s : gmap string value) (k : string) :
  foldl (assign V) s (map_to_list d) !! k
  = match d !! k with
    | Some v => from_option Some (s !! k) (validated V k v)
    | None => s !! k
    end.
Proof.
  rewrite foldl_assign_lookup by apply NoDup_fst_map_to_list.
  by rewrite list_to_map_to_list.
Qed.



End Loading.


(** ** Saving, then importing again *)

Lemma same_files_refl (w : World) : same_files w w.
Proof. by unfold same_files. Qed.

Lemma same_files_trans (w1 w2 w3 : World) :
  same_files w1 w2 → same_files w2 w3 → same_files w1 w3.
Proof. unfold same_files. intros (-> & -> & ->) (-> & -> & ->). done. Qed.

Lemma keeps_files_ret {A} (a : A) : keeps_files (ret a).
Proof. intros w. apply same_files_refl. Qed.

Lemma keeps_files_raise {A} (e : exn) : keeps_files (raise (A := A) e).
Proof. intros w. apply same_files_refl. Qed.

Lemma keeps_files_bind {A B} (m : M A) (k : A → M B) :
  keeps_files m → (∀ a, keeps_files (k a)) → keeps_files (bind m k).
Proof.
  intros Hm Hk w. unfold bind.
  specialize (Hm w). destruct (m w) as [[a|e] w']; simpl in *; [|done].
  eapply same_files_trans; [exact Hm | apply Hk].
Qed.

Lemma keeps_files_logger l fmt args : keeps_files (logger l fmt args).
Proof. intros w. by unfold same_files. Qed.

Lemma keeps_files_print args : keeps_files (print args).
Proof. intros w. by unfold same_files. Qed.

Lemma keeps_files_record_spawn i : keeps_files (record_spawn i).
Proof. intros w. by unfold same_files. Qed.

Lemma keeps_files_get_world : keeps_files get_world.
Proof. intros w. apply same_files_refl. Qed.

Lemma keeps_files_subscript d k : keeps_files (subscript d k).
Proof. unfold subscript. destruct (d !! k); [apply keeps_files_ret | apply keeps_files_raise]. Qed.

Create HintDb keeps_files.
#[local] Hint Resolve keeps_files_ret keeps_files_raise keeps_files_logger
  keeps_files_print keeps_files_record_spawn keeps_files_get_world
  keeps_files_subscript : keeps_files.

(** Breaks a computation down to the operations on the world. *)
Ltac keeps_files :=
  repeat first
    [ progress auto with keeps_files
    | apply keeps_files_bind; [|intros ?]
    | match goal with
      | |- keeps_files (match ?x with _ => _ end) => destruct x
      end ].




Section RoundTrip.

Context (V : Validators) (host : Host).





End RoundTrip.


(** ** The port token of the options file *)
























(** ** The user under a system username *)

Section SystemUser.

Context (V : Validators) (host : Host).

(** Under a system username the user layer, when it completes, leaves the
    [user] setting alone: the loop runs on the loaded dictionary without
    its [user] member. *)
Lemma load_document_keeps_user (debian : option string) (doc : document)
    (s s' : gmap string value) (w w' : World) :
  truthy debian = true →
  load_document V host debian doc s w = (Ok s', w') →
  s' !! "user" = s !! "user".
Proof.
  intros Htruthy Hrun. unfold load_document in Hrun. rewrite Htruthy in Hrun.
  destruct doc as [d|v]; [|discriminate Hrun].
  destruct (d !! "user") eqn:Hu; [|discriminate Hrun].
  unfold bind at 1 in Hrun. cbn [ret] in Hrun.
  unfold bind at 1 in Hrun. rewrite load_fields_fold in Hrun.
  set (s1 := foldl (assign V) s (map_to_list (delete "user" d))) in *.
  assert (s1 !! "user" = s !! "user") as Hs1.
  { subst s1. by rewrite load_fields_lookup, lookup_delete_eq. }
  clearbody s1.
  unfold recompute_paths, bind, subscript, get_kalite_home, print, ret,
    raise in Hrun.
  repeat (case_match; simplify_eq/=);
    rewrite ?lookup_insert_ne by done; congruence.
Qed.

(** A valid, non-empty name in the username file is the resolved user
    whenever the import completes. *)
Lemma resolve_user_from_username_file (w w' : World) (G : Globals)
    (text user : string) :
  username_file w = Some text →
  hd "" (split_char "010" text) ≠ "" →
  username V (VStr (hd "" (split_char "010" text))) = Some user →
  user ≠ "" →
  resolve V host w = (Ok G, w') →
  settings G !! "user" = Some (VStr user).
Proof.
  intros Hfile Hname Hvalid Huser Hrun.
  assert (truthy (Some user) = true) as Htruthy by by destruct user.
  unfold resolve, load_debian_defaults in Hrun.
  unfold bind at 1 2 in Hrun. unfold get_world at 1 in Hrun.
  rewrite Hfile in Hrun.
  destruct (hd "" (split_char "010" text)) as [|a name] eqn:Hhd; [done|].
  rewrite Hvalid in Hrun.
  assert (∃ n, (match options_file w with
                | Some current_server_options =>
                    match search_port current_server_options with
                    | Some digits => ret (user, int_of_digits digits, Some user)
                    | None => ret (user, 8008, Some user)
                    end
                | None => ret (user, 8008, Some user)
                end) w = (Ok (user, n, Some user), w)) as [n Hdef].
  { destruct (options_file w) as [o|]; [destruct (search_port o)|]; by eexists. }
  rewrite Hdef in Hrun. clear Hdef.
  unfold bind at 1 in Hrun. unfold get_kalite_home at 1 in Hrun.
  destruct (getpwnam host user) as [pw_dir|]; [|discriminate Hrun].
  cbn [ret] in Hrun. unfold bind at 1 in Hrun.
  destruct (load_user_settings V host (Some user) _ w) as [[s|e] w1] eqn:Hload;
    [|discriminate Hrun].
  injection Hrun as <- _. cbn [settings].
  unfold load_user_settings, bind, get_world in Hload.
  destruct (user_settings w) as [[|doc]|].
  - cbn in Hload. by injection Hload as <- _.
  - apply load_document_keeps_user in Hload; [|done]. by rewrite Hload.
  - cbn in Hload. by injection Hload as <- _.
Qed.

End SystemUser.

(** ** The convention layer and the whole user layer *)

Section Layers.

Context (V : Validators) (host : Host).

(** The import reads the convention files only where they exist: the
    convention layer always returns, and without a username file it gives
    the compiled defaults and leaves the world as it is. *)
Lemma load_debian_defaults_returns (w : World) :
  ∃ r w', load_debian_defaults V host w = (Ok r, w').
Proof.
  unfold load_debian_defaults, bind, get_world, logger, ret.
  repeat case_match; by eexists _, _.
Qed.

Lemma load_debian_defaults_absent (w : World) :
  username_file w = None →
  load_debian_defaults V host w = (Ok (getuser host, 8008, None), w).
Proof.
  intros Hfile. unfold load_debian_defaults, bind, get_world.
  by rewrite Hfile.
Qed.

Lemma validated_home (v : value) : validated V "home" v = Some v.
Proof. by apply validated_no_validator. Qed.

Lemma validated_content_root (v : value) : validated V "content_root" v = Some v.
Proof. by apply validated_no_validator. Qed.

(** The outcome of the recomputation depends on the loaded dictionary only
    through its members [home] and [content_root], and not on the world. *)
Lemma recompute_paths_outcome (d d' s : gmap string value) (w w' : World) :
  d !! "home" = d' !! "home" →
  d !! "content_root" = d' !! "content_root" →
  (recompute_paths host d s w).1 = (recompute_paths host d' s w').1.
Proof.
  intros Hhome Hroot. unfold recompute_paths. rewrite Hhome, Hroot.
  unfold bind, subscript, get_kalite_home, print, ret, raise.
  repeat (case_match; simplify_eq/=); done.
Qed.

(** The whole user layer on a loaded object in which a member that the loop
    sees fails its validator ends as it does on the object without that
    member: with the same settings, or with the same exception. *)
Lemma load_document_bad_field_as_absent (debian : option string)
    (d s : gmap string value) (k0 : string) (v0 : value) (w : World) :
  (if truthy debian then delete "user" d else d) !! k0 = Some v0 →
  validated V k0 v0 = None →
  (load_document V host debian (DObject d) s w).1
  = (load_document V host debian (DObject (delete k0 d)) s w).1.
Proof.
  intros Hk0 Hbad.
  assert (k0 ≠ "home") as Hhome
    by (intros ->; by rewrite validated_home in Hbad).
  assert (k0 ≠ "content_root") as Hroot
    by (intros ->; by rewrite validated_content_root in Hbad).
  assert (∀ seen : gmap string value, seen !! k0 = Some v0 →
            foldl (assign V) s (map_to_list (delete k0 seen))
            = foldl (assign V) s (map_to_list seen)) as Hfold.
  { intros seen Hseen. apply map_eq. intros k. rewrite !load_fields_lookup.
    destruct (decide (k = k0)) as [->|Hne].
    - by rewrite lookup_delete_eq, Hseen, Hbad.
    - by rewrite lookup_delete_ne. }
  unfold load_document. destruct (truthy debian).
  - assert (k0 ≠ "user") as Huser
      by (intros ->; by rewrite lookup_delete_eq in Hk0).
    rewrite (lookup_delete_ne d) by done.
    destruct (d !! "user") as [u|]; [|done].
    rewrite (delete_delete d "user" k0).
    unfold bind. cbn [ret]. rewrite !load_fields_fold, (Hfold _ Hk0).
    apply recompute_paths_outcome; by rewrite (lookup_delete_ne _ k0).
  - unfold bind. cbn [ret]. rewrite !load_fields_fold, (Hfold _ Hk0).
    apply recompute_paths_outcome; by rewrite (lookup_delete_ne _ k0).
Qed.

End Layers.

(** * Further properties *)

(** ** What the import leaves alone *)

Lemma quiet_ret {A} (a : A) : quiet (ret a).
Proof. intros w. split; [apply same_files_refl | done]. Qed.

Lemma quiet_raise {A} (e : exn) : quiet (raise (A := A) e).
Proof. intros w. split; [apply same_files_refl | done]. Qed.

Lemma quiet_bind {A B} (m : M A) (k : A → M B) :
  quiet m → (∀ a, quiet (k a)) → quiet (bind m k).
Proof.
  intros Hm Hk w. unfold bind.
  destruct (Hm w) as [Hf Hs]. destruct (m w) as [[a|e] w']; simpl in *; [|done].
  destruct (Hk a w') as [Hf' Hs']. split.
  - by eapply same_files_trans.
  - congruence.
Qed.

Lemma quiet_logger l fmt args : quiet (logger l fmt args).
Proof. intros w. by unfold same_files. Qed.

Lemma quiet_print args : quiet (print args).
Proof. intros w. by unfold same_files. Qed.

Lemma quiet_get_world : quiet get_world.
Proof. intros w. by unfold same_files. Qed.

Lemma quiet_subscript d k : quiet (subscript d k).
Proof. unfold subscript. destruct (d !! k); [apply quiet_ret | apply quiet_raise]. Qed.

Create HintDb quiet.
#[local] Hint Resolve quiet_ret quiet_raise quiet_logger quiet_print
  quiet_get_world quiet_subscript : quiet.

(** Breaks a computation down to the operations on the world. *)
Ltac quiet :=
  repeat first
    [ progress auto with quiet
    | apply quiet_bind; [|intros ?]
    | match goal with
      | |- quiet (match ?x with _ => _ end) => destruct x
      end ].

Section Importing.

Context (V : Validators) (host : Host).

Lemma quiet_load_fields (items : list (string * value)) (s : gmap string value) :
  quiet (load_fields V host items s).
Proof. intros w. rewrite load_fields_fold. by unfold same_files. Qed.

Lemma quiet_load_debian_defaults : quiet (load_debian_defaults V host).
Proof. unfold load_debian_defaults. quiet. Qed.

Lemma quiet_get_kalite_home (user : value) : quiet (get_kalite_home host user).
Proof. unfold get_kalite_home. quiet. Qed.

Lemma quiet_load_user_settings (debian : option string) (s : gmap string value) :
  quiet (load_user_settings V host debian s).
Proof.
  pose proof quiet_load_fields. pose proof quiet_get_kalite_home.
  unfold load_user_settings, load_document, recompute_paths. quiet.
Qed.

(** X1: Importing the module writes none of the three files and spawns no
    subprocess, however it ends. *)
Theorem resolve_is_quiet (w : World) :
  username_file (resolve V host w).2 = username_file w ∧
  options_file (resolve V host w).2 = options_file w ∧
  user_settings (resolve V host w).2 = user_settings w ∧
  spawned (resolve V host w).2 = spawned w.
Proof.
  assert (quiet (resolve V host)) as Hquiet.
  { pose proof quiet_load_debian_defaults. pose proof quiet_get_kalite_home.
    pose proof quiet_load_user_settings. unfold resolve. quiet. }
  destruct (Hquiet w) as [(? & ? & ?) ?]. done.
Qed.

(** The import in three steps: the convention layer, the home of the
    default user, the user layer. *)
Lemma resolve_steps (w w1 : World) (user : string) (port : Z)
    (debian : option string) (pw_dir : string) :
  load_debian_defaults V host w = (Ok (user, port, debian), w1) →
  getpwnam host user = Some pw_dir →
  resolve V host w
  = match load_user_settings V host debian
            (default_settings host user port (path_join pw_dir ".kalite")) w1 with
    | (Ok s, w2) =>
        (Ok {| DEFAULT_USER := user; DEFAULT_PORT := port;
               DEFAULT_HOME := path_join pw_dir ".kalite";
               debian_username := debian; settings := s |}, w2)
    | (Raise e, w2) => (Raise e, w2)
    end.
Proof.
  intros Hdeb Hpw. unfold resolve, bind. rewrite Hdeb.
  unfold get_kalite_home. rewrite Hpw. cbn [ret].
  by destruct (load_user_settings V host debian _ w1) as [[s|e] w2].
Qed.

Lemma resolve_inv (w w' : World) (G : Globals) :
  resolve V host w = (Ok G, w') →
  ∃ w1 pw_dir,
    load_debian_defaults V host w
    = (Ok (DEFAULT_USER G, DEFAULT_PORT G, debian_username G), w1) ∧
    getpwnam host (DEFAULT_USER G) = Some pw_dir ∧
    DEFAULT_HOME G = path_join pw_dir ".kalite" ∧
    load_user_settings V host (debian_username G)
      (default_settings host (DEFAULT_USER G) (DEFAULT_PORT G) (DEFAULT_HOME G)) w1
    = (Ok (settings G), w').
Proof.
  intros Hrun.
  destruct (load_debian_defaults_returns V host w) as ([[user port] debian] & w1 & Hdeb).
  destruct (getpwnam host user) as [pw_dir|] eqn:Hpw.
  - rewrite (resolve_steps _ _ _ _ _ _ Hdeb Hpw) in Hrun.
    destruct (load_user_settings V host debian _ w1) as [[s|e] w2] eqn:Hload;
      [|discriminate Hrun].
    injection Hrun as <- <-. simpl. by exists w1, pw_dir.
  - unfold resolve, bind in Hrun. rewrite Hdeb in Hrun.
    unfold get_kalite_home in Hrun. rewrite Hpw in Hrun. discriminate Hrun.
Qed.

(** X5: The import aborts with [KeyError] when the default user has no
    account. *)
Theorem resolve_unknown_default_user (w w1 : World) (user : string) (port : Z)
    (debian : option string) :
  load_debian_defaults V host w = (Ok (user, port, debian), w1) →
  getpwnam host user = None →
  resolve V host w = (Raise KeyError, w1).
Proof.
  intros Hdeb Hpw. unfold resolve, bind. rewrite Hdeb.
  unfold get_kalite_home. by rewrite Hpw.
Qed.

(** Without a username file and without a user settings file, the import
    gives the compiled defaults, whatever the options file holds, and
    leaves the world as it is. *)
Theorem resolve_compiled_defaults (w : World) (pw_dir : string) :
  username_file w = None →
  user_settings w = None →
  getpwnam host (getuser host) = Some pw_dir →
  resolve V host w
  = (Ok {| DEFAULT_USER := getuser host; DEFAULT_PORT := 8008;
           DEFAULT_HOME := path_join pw_dir ".kalite";
           debian_username := None;
           settings := default_settings host (getuser host) 8008
                         (path_join pw_dir ".kalite") |}, w).
Proof.
  intros Hname Hfile Hpw.
  rewrite (resolve_steps w w _ _ _ _ (load_debian_defaults_absent V host w Hname) Hpw).
  unfold load_user_settings, bind, get_world. by rewrite Hfile.
Qed.

(** X2: The options file is read only after a valid username file: without a
    username file the default port of a completed import is 8008 and the
    default user is the invoking user. *)
Theorem resolve_ignores_options_without_username (w w' : World) (G : Globals) :
  username_file w = None →
  resolve V host w = (Ok G, w') →
  DEFAULT_PORT G = 8008 ∧ DEFAULT_USER G = getuser host ∧
  debian_username G = None.
Proof.
  intros Hname Hrun.
  apply resolve_inv in Hrun as (w1 & pw_dir & Hdeb & _).
  rewrite (load_debian_defaults_absent V host w Hname) in Hdeb.
  by injection Hdeb as <- <- <- _.
Qed.

(** X3: With a valid name in the username file, a port in the options file and
    no user settings file, the resolved user is that name, and the resolved
    port and the default port are the port of the options file. *)
Theorem resolve_port_from_options (w : World) (text options digits user pw_dir : string) :
  username_file w = Some text →
  hd "" (split_char "010" text) ≠ "" →
  username V (VStr (hd "" (split_char "010" text))) = Some user →
  options_file w = Some options →
  search_port options = Some digits →
  user_settings w = None →
  getpwnam host user = Some pw_dir →
  resolve V host w
  = (Ok {| DEFAULT_USER := user; DEFAULT_PORT := int_of_digits digits;
           DEFAULT_HOME := path_join pw_dir ".kalite";
           debian_username := Some user;
           settings := default_settings host user (int_of_digits digits)
                         (path_join pw_dir ".kalite") |}, w).
Proof.
  intros Hname Hne Hvalid Hopt Hport Hfile Hpw.
  assert (load_debian_defaults V host w
          = (Ok (user, int_of_digits digits, Some user), w)) as Hdeb.
  { unfold load_debian_defaults, bind, get_world. rewrite Hname.
    destruct (hd "" (split_char "010" text)) as [|a name]; [done|].
    by rewrite Hvalid, Hopt, Hport. }
  rewrite (resolve_steps w w _ _ _ _ Hdeb Hpw).
  unfold load_user_settings, bind, get_world. by rewrite Hfile.
Qed.

End Importing.

(** ** The user layer of the import *)

Section UserLayer.

Context (V : Validators) (host : Host).

(** The record of line 111. *)
Lemma load_user_settings_malformed (debian : option string)
    (s : gmap string value) (w : World) :
  user_settings w = Some Malformed →
  load_user_settings V host debian s w
  = (Ok s, logged [LogRecord ERROR "Parsing error in {}"
                     [LogText (KALITE_GTK_SETTINGS_FILE host)]] w).
Proof.
  intros Hfile. unfold load_user_settings, bind, get_world. by rewrite Hfile.
Qed.

Lemma load_debian_defaults_files (w w1 : World) r :
  load_debian_defaults V host w = (Ok r, w1) →
  user_settings w1 = user_settings w.
Proof.
  intros Hdeb. destruct (quiet_load_debian_defaults V host w) as [(_ & _ & Hu) _].
  by rewrite Hdeb in Hu.
Qed.

(** X6: A user settings file that does not parse costs nothing but a log
    record: the import completes with the defaults of the convention
    layer. *)
Theorem resolve_malformed_settings_file (w w1 : World) (user : string)
    (port : Z) (debian : option string) (pw_dir : string) :
  load_debian_defaults V host w = (Ok (user, port, debian), w1) →
  getpwnam host user = Some pw_dir →
  user_settings w = Some Malformed →
  resolve V host w
  = (Ok {| DEFAULT_USER := user; DEFAULT_PORT := port;
           DEFAULT_HOME := path_join pw_dir ".kalite";
           debian_username := debian;
           settings := default_settings host user port
                         (path_join pw_dir ".kalite") |},
     logged [LogRecord ERROR "Parsing error in {}"
               [LogText (KALITE_GTK_SETTINGS_FILE host)]] w1).
Proof.
  intros Hdeb Hpw Hfile.
  rewrite (resolve_steps V host _ _ _ _ _ _ Hdeb Hpw).
  rewrite load_user_settings_malformed; [done|].
  by rewrite (load_debian_defaults_files _ _ _ Hdeb).
Qed.

(** X7: A user settings file that parses to something else than an object
    aborts the import: with [TypeError] at the [del] of line 98 under a
    system username, with [AttributeError] at the [items()] of line 99
    otherwise. *)
Theorem resolve_non_object_settings_file (w w1 : World) (user : string)
    (port : Z) (debian : option string) (pw_dir : string) (v : value) :
  load_debian_defaults V host w = (Ok (user, port, debian), w1) →
  getpwnam host user = Some pw_dir →
  user_settings w = Some (Json (DOther v)) →
  resolve V host w
  = (Raise (if truthy debian then TypeError else AttributeError), w1).
Proof.
  intros Hdeb Hpw Hfile.
  rewrite (resolve_steps V host _ _ _ _ _ _ Hdeb Hpw).
  unfold load_user_settings, bind at 1, get_world.
  rewrite (load_debian_defaults_files _ _ _ Hdeb), Hfile.
  unfold load_document, bind. by destruct (truthy debian).
Qed.

(** The dictionary that the loop of line 99 iterates. *)
Lemma load_document_inv (debian : option string) (d s s' : gmap string value)
    (w w' : World) :
  load_document V host debian (DObject d) s w = (Ok s', w') →
  ∃ w2, recompute_paths host (if truthy debian then delete "user" d else d)
          (foldl (assign V) s
             (map_to_list (if truthy debian then delete "user" d else d))) w2
        = (Ok s', w').
Proof.
  unfold load_document. destruct (truthy debian).
  - destruct (d !! "user"); [|discriminate].
    unfold bind at 1. cbn [ret]. unfold bind at 1. rewrite load_fields_fold.
    intros Hrun. by eexists.
  - unfold bind at 1. cbn [ret]. unfold bind at 1. rewrite load_fields_fold.
    intros Hrun. by eexists.
Qed.

Lemma recompute_paths_other (d s s' : gmap string value) (w w' : World) (k : string) :
  recompute_paths host d s w = (Ok s', w') →
  k ≠ "home" → k ≠ "content_root" → s' !! k = s !! k.
Proof.
  intros Hrun Hh Hc.
  unfold recompute_paths, bind, subscript, get_kalite_home, print, ret, raise in Hrun.
  repeat (case_match; simplify_eq/=); by rewrite ?lookup_insert_ne by done.
Qed.

Lemma recompute_paths_keeps_keys (d s s' : gmap string value) (w w' : World)
    (k : string) :
  recompute_paths host d s w = (Ok s', w') →
  is_Some (s !! k) → is_Some (s' !! k).
Proof.
  intros Hrun Hk.
  unfold recompute_paths, bind, subscript, get_kalite_home, print, ret, raise in Hrun.
  repeat (case_match; simplify_eq/=);
    rewrite ?lookup_insert_is_Some'; auto.
Qed.

(** Where the loaded settings have no [home], the home is the [.kalite]
    folder of the account of the user as the loop left it. *)
Lemma recompute_paths_home (d s s' : gmap string value) (w w' : World) :
  recompute_paths host d s w = (Ok s', w') →
  d !! "home" = None →
  ∃ u pw_dir, s !! "user" = Some (VStr u) ∧ getpwnam host u = Some pw_dir ∧
              s' !! "home" = Some (VStr (path_join pw_dir ".kalite")).
Proof.
  intros Hrun Hhome.
  unfold recompute_paths in Hrun. rewrite Hhome in Hrun.
  unfold bind, subscript, get_kalite_home, print, ret, raise in Hrun.
  repeat (case_match; simplify_eq/=); eexists _, _;
    (split; [done|]); (split; [done|]);
    by rewrite ?lookup_insert_ne, ?lookup_insert_eq by done.
Qed.

(** Where the loaded settings have no [content_root], the content root is
    the folder [content] of the home. *)
Lemma recompute_paths_content_root (d s s' : gmap string value) (w w' : World) :
  recompute_paths host d s w = (Ok s', w') →
  d !! "content_root" = None →
  ∃ h, s' !! "home" = Some (VStr h) ∧
       s' !! "content_root" = Some (VStr (path_join h "content")).
Proof.
  intros Hrun Hroot.
  unfold recompute_paths in Hrun. rewrite Hroot in Hrun.
  unfold bind, subscript, get_kalite_home, print, ret, raise in Hrun.
  repeat (case_match; simplify_eq/=); eexists;
    (split; [rewrite lookup_insert_ne by done; eassumption
            | by rewrite lookup_insert_eq]).
Qed.

Lemma foldl_assign_keeps_keys (items : list (string * value)) :
  ∀ (s : gmap string value) (k : string),
    is_Some (s !! k) → is_Some (foldl (assign V) s items !! k).
Proof.
  induction items as [|[k1 v1] items IH]; intros s k Hk; [done|].
  cbn [foldl]. apply IH. unfold assign. simpl.
  destruct (validated V k1 v1); [|done].
  rewrite lookup_insert_is_Some'. by right.
Qed.

(** The user layer never removes a key. *)
Lemma load_user_settings_keeps_keys (debian : option string)
    (s s' : gmap string value) (w w' : World) (k : string) :
  load_user_settings V host debian s w = (Ok s', w') →
  is_Some (s !! k) → is_Some (s' !! k).
Proof.
  unfold load_user_settings, bind at 1, get_world.
  destruct (user_settings w) as [[|[d|v]]|]; intros Hrun Hk.
  - unfold bind, logger, ret in Hrun. by simplify_eq/=.
  - apply load_document_inv in Hrun as [w2 Hrun].
    eapply recompute_paths_keeps_keys; [exact Hrun|].
    by apply foldl_assign_keeps_keys.
  - unfold load_document, bind in Hrun. by destruct (truthy debian).
  - unfold ret in Hrun. by simplify_eq/=.
Qed.

(** Every key other than [home] and [content_root] holds, after the user
    layer, what it held before or what line 101 computed for a member of
    the file. *)
Lemma load_user_settings_field (debian : option string)
    (s s' : gmap string value) (w w' : World) (k : string) :
  load_user_settings V host debian s w = (Ok s', w') →
  k ≠ "home" → k ≠ "content_root" →
  s' !! k = s !! k ∨ ∃ v v', validated V k v = Some v' ∧ s' !! k = Some v'.
Proof.
  unfold load_user_settings, bind at 1, get_world.
  destruct (user_settings w) as [[|[d|v]]|]; intros Hrun Hh Hc.
  - unfold bind, logger, ret in Hrun. simplify_eq/=. by left.
  - apply load_document_inv in Hrun as [w2 Hrun].
    rewrite (recompute_paths_other _ _ _ _ _ k Hrun Hh Hc), load_fields_lookup.
    destruct (_ !! k) as [v|]; [|by left].
    destruct (validated V k v) as [v'|] eqn:Hv; [right; by exists v, v' | by left].
  - unfold load_document, bind in Hrun. by destruct (truthy debian).
  - unfold ret in Hrun. simplify_eq/=. by left.
Qed.

(** X8: Invariant of the import: the five keys of the settings are present. *)
Theorem resolve_keys_present (w w' : World) (G : Globals) (k : string) :
  resolve V host w = (Ok G, w') →
  k ∈ settings_keys →
  is_Some (settings G !! k).
Proof.
  intros Hrun Hk.
  apply resolve_inv in Hrun as (w1 & pw_dir & _ & _ & _ & Hload).
  eapply load_user_settings_keeps_keys; [exact Hload|].
  unfold settings_keys in Hk. set_unfold.
  destruct Hk as [->|[->|[->|[->|[->|[]]]]]]; by eexists.
Qed.

(** X9: Invariant of the import: the resolved user is a string that is the
    default user or a name that the validator returned; the resolved port
    is an integer that is the default port or a port that the validator
    returned; the resolved command is what the search of the managed binary
    gave or a command that the validator returned.  No value of the user
    file reaches these three keys unvalidated. *)
Theorem resolve_validated_fields (w w' : World) (G : Globals) :
  resolve V host w = (Ok G, w') →
  (∃ u, settings G !! "user" = Some (VStr u) ∧
        (u = DEFAULT_USER G ∨ ∃ v, username V v = Some u)) ∧
  (∃ n, settings G !! "port" = Some (VInt n) ∧
        (n = DEFAULT_PORT G ∨ ∃ v, port V v = Some n)) ∧
  (settings G !! "command" = Some (from_option VStr VNone (find_kalite host)) ∨
   ∃ c v, settings G !! "command" = Some (VStr c) ∧ command V v = Some c).
Proof.
  intros Hrun.
  apply resolve_inv in Hrun as (w1 & pw_dir & _ & _ & _ & Hload).
  split; [|split].
  - destruct (load_user_settings_field _ _ _ _ _ "user" Hload)
      as [Hk|(v & v' & Hv & Hk)]; [done | done | |].
    + exists (DEFAULT_USER G). split; [by rewrite Hk | by left].
    + unfold validated in Hv. simpl in Hv.
      destruct (username V v) as [u|] eqn:Hu; [|done].
      simplify_eq/=. exists u. split; [done | right; by exists v].
  - destruct (load_user_settings_field _ _ _ _ _ "port" Hload)
      as [Hk|(v & v' & Hv & Hk)]; [done | done | |].
    + exists (DEFAULT_PORT G). split; [by rewrite Hk | by left].
    + unfold validated in Hv. simpl in Hv.
      destruct (port V v) as [n|] eqn:Hn; [|done].
      simplify_eq/=. exists n. split; [done | right; by exists v].
  - destruct (load_user_settings_field _ _ _ _ _ "command" Hload)
      as [Hk|(v & v' & Hv & Hk)]; [done | done | |].
    + left. by rewrite Hk.
    + unfold validated in Hv. simpl in Hv.
      destruct (command V v) as [c|] eqn:Hc; [|done].
      simplify_eq/=. right. by exists c, v.
Qed.

(** X10: Whenever the import completes on a settings object without [home], the
    resolved home is the [.kalite] folder of the account of the resolved
    user. *)
Theorem resolve_home_follows_user (w w' : World) (G : Globals)
    (d : gmap string value) :
  resolve V host w = (Ok G, w') →
  user_settings w = Some (Json (DObject d)) →
  d !! "home" = None →
  ∃ u pw_dir, settings G !! "user" = Some (VStr u) ∧
              getpwnam host u = Some pw_dir ∧
              settings G !! "home" = Some (VStr (path_join pw_dir ".kalite")).
Proof.
  intros Hrun Hfile Hhome.
  apply resolve_inv in Hrun as (w1 & pw_dir & Hdeb & _ & _ & Hload).
  unfold load_user_settings, bind at 1, get_world in Hload.
  rewrite (load_debian_defaults_files _ _ _ Hdeb), Hfile in Hload.
  apply load_document_inv in Hload as [w2 Hload].
  destruct (recompute_paths_home _ _ _ _ _ Hload) as (u & dir & Hu & Hdir & Hh).
  { destruct (truthy _); [by rewrite lookup_delete_ne|done]. }
  exists u, dir. split; [|done].
  by rewrite (recompute_paths_other _ _ _ _ _ "user" Hload).
Qed.

(** X11: Whenever the import completes on a settings object without
    [content_root], the resolved content root is the folder [content] of
    the resolved home. *)
Theorem resolve_content_root_follows_home (w w' : World) (G : Globals)
    (d : gmap string value) :
  resolve V host w = (Ok G, w') →
  user_settings w = Some (Json (DObject d)) →
  d !! "content_root" = None →
  ∃ h, settings G !! "home" = Some (VStr h) ∧
       settings G !! "content_root" = Some (VStr (path_join h "content")).
Proof.
  intros Hrun Hfile Hroot.
  apply resolve_inv in Hrun as (w1 & pw_dir & Hdeb & _ & _ & Hload).
  unfold load_user_settings, bind at 1, get_world in Hload.
  rewrite (load_debian_defaults_files _ _ _ Hdeb), Hfile in Hload.
  apply load_document_inv in Hload as [w2 Hload].
  apply (recompute_paths_content_root _ _ _ _ _ Hload).
  destruct (truthy _); [by rewrite lookup_delete_ne|done].
Qed.

(** X4: A name in the username file that the validator rejects does not become
    the default user, and yet the [user] of the user settings file is
    dropped: whenever the import completes, the resolved user is the
    invoking user. *)
Theorem resolve_invalid_system_username (w w' : World) (G : Globals)
    (text : string) :
  username_file w = Some text →
  hd "" (split_char "010" text) ≠ "" →
  username V (VStr (hd "" (split_char "010" text))) = None →
  resolve V host w = (Ok G, w') →
  DEFAULT_USER G = getuser host ∧ DEFAULT_PORT G = 8008 ∧
  settings G !! "user" = Some (VStr (getuser host)).
Proof.
  intros Hname Hne Hbad Hrun.
  apply resolve_inv in Hrun as (w1 & pw_dir & Hdeb & _ & _ & Hload).
  unfold load_debian_defaults, bind at 1, get_world in Hdeb.
  rewrite Hname in Hdeb.
  destruct (hd "" (split_char "010" text)) as [|a name]; [done|].
  rewrite Hbad in Hdeb. unfold bind, logger, ret in Hdeb.
  injection Hdeb as Hu Hp Hd _.
  rewrite <- Hu, <- Hp, <- Hd in Hload. rewrite <- Hu, <- Hp.
  split; [done|split; [done|]].
  unfold load_user_settings, bind at 1, get_world in Hload.
  destruct (user_settings w1) as [[|doc]|].
  - unfold bind, logger, ret in Hload. injection Hload as <- _. reflexivity.
  - apply load_document_keeps_user in Hload; [|done]. by rewrite Hload.
  - unfold ret in Hload. injection Hload as <- _. reflexivity.
Qed.

End UserLayer.

(** ** The import on the sample machines *)

Lemma resolve_unknown_default_user_witness :
  resolve sample_validators ghost_host fresh_world = (Raise KeyError, fresh_world).
Proof.
  apply (resolve_unknown_default_user sample_validators ghost_host
           fresh_world fresh_world "ghost" 8008 None); reflexivity.
Defined.

Lemma resolve_compiled_defaults_witness :
  resolve sample_validators sample_host
    (with_files None (Some "--port=7007") None)
  = (Ok {| DEFAULT_USER := "alice"; DEFAULT_PORT := 8008;
           DEFAULT_HOME := path_join "/home/alice" ".kalite";
           debian_username := None;
           settings := default_settings sample_host "alice" 8008
                         (path_join "/home/alice" ".kalite") |},
     with_files None (Some "--port=7007") None).
Proof.
  apply (resolve_compiled_defaults sample_validators sample_host
           (with_files None (Some "--port=7007") None) "/home/alice");
    reflexivity.
Defined.

Lemma resolve_ignores_options_without_username_witness :
  DEFAULT_PORT sample_globals = 8008 ∧ DEFAULT_USER sample_globals = "alice" ∧
  debian_username sample_globals = None.
Proof.
  apply (resolve_ignores_options_without_username sample_validators sample_host
           (with_files None (Some "--port=7007") None)
           (with_files None (Some "--port=7007") None) sample_globals);
    reflexivity.
Defined.

Lemma resolve_port_from_options_witness :
  resolve sample_validators sample_host
    (with_files (Some ("kalite" +:+ nl)) (Some "--host=0.0.0.0 --port=7007") None)
  = (Ok {| DEFAULT_USER := "kalite"; DEFAULT_PORT := int_of_digits "7007";
           DEFAULT_HOME := path_join "/var/lib/kalite" ".kalite";
           debian_username := Some "kalite";
           settings := default_settings sample_host "kalite" (int_of_digits "7007")
                         (path_join "/var/lib/kalite" ".kalite") |},
     with_files (Some ("kalite" +:+ nl)) (Some "--host=0.0.0.0 --port=7007") None).
Proof.
  apply (resolve_port_from_options sample_validators sample_host
           (with_files (Some ("kalite" +:+ nl)) (Some "--host=0.0.0.0 --port=7007") None)
           ("kalite" +:+ nl) "--host=0.0.0.0 --port=7007" "7007" "kalite"
           "/var/lib/kalite"); try reflexivity.
  simpl. discriminate.
Defined.

Lemma resolve_malformed_settings_file_witness :
  resolve sample_validators sample_host (with_files None None (Some Malformed))
  = (Ok {| DEFAULT_USER := "alice"; DEFAULT_PORT := 8008;
           DEFAULT_HOME := path_join "/home/alice" ".kalite";
           debian_username := None;
           settings := default_settings sample_host "alice" 8008
                         (path_join "/home/alice" ".kalite") |},
     logged [LogRecord ERROR "Parsing error in {}"
               [LogText (KALITE_GTK_SETTINGS_FILE sample_host)]]
       (with_files None None (Some Malformed))).
Proof.
  apply (resolve_malformed_settings_file sample_validators sample_host
           (with_files None None (Some Malformed))
           (with_files None None (Some Malformed)) "alice" 8008 None "/home/alice");
    reflexivity.
Defined.

Lemma resolve_non_object_settings_file_witness :
  resolve sample_validators sample_host
    (with_files None None (Some (Json (DOther (VComposite "[1, 2]")))))
  = (Raise (if truthy None then TypeError else AttributeError),
     with_files None None (Some (Json (DOther (VComposite "[1, 2]"))))).
Proof.
  apply (resolve_non_object_settings_file sample_validators sample_host
           (with_files None None (Some (Json (DOther (VComposite "[1, 2]")))))
           (with_files None None (Some (Json (DOther (VComposite "[1, 2]")))))
           "alice" 8008 None "/home/alice" (VComposite "[1, 2]"));
    reflexivity.
Defined.

Lemma resolve_keys_present_witness :
  is_Some (settings sample_globals !! "content_root").
Proof.
  apply (resolve_keys_present sample_validators sample_host fresh_world
           fresh_world sample_globals "content_root").
  - reflexivity.
  - apply list_elem_of_In. simpl. tauto.
Defined.

Lemma resolve_validated_fields_witness :
  (∃ u, settings sample_globals !! "user" = Some (VStr u) ∧
        (u = DEFAULT_USER sample_globals ∨
         ∃ v, username sample_validators v = Some u)) ∧
  (∃ n, settings sample_globals !! "port" = Some (VInt n) ∧
        (n = DEFAULT_PORT sample_globals ∨ ∃ v, port sample_validators v = Some n)) ∧
  (settings sample_globals !! "command"
   = Some (from_option VStr VNone (find_kalite sample_host)) ∨
   ∃ c v, settings sample_globals !! "command" = Some (VStr c) ∧
          command sample_validators v = Some c).
Proof.
  apply (resolve_validated_fields sample_validators sample_host fresh_world
           fresh_world sample_globals).
  reflexivity.
Defined.

Lemma resolve_home_follows_user_witness :
  ∃ G w', resolve sample_validators sample_host
            (with_files None None (Some (Json (DObject sample_loaded))))
          = (Ok G, w') ∧
          ∃ u pw_dir, settings G !! "user" = Some (VStr u) ∧
                      sample_accounts u = Some pw_dir ∧
                      settings G !! "home" = Some (VStr (path_join pw_dir ".kalite")).
Proof.
  eexists _, _. split; [vm_compute; reflexivity|].
  eapply (resolve_home_follows_user sample_validators sample_host
            (with_files None None (Some (Json (DObject sample_loaded))))).
  - vm_compute. reflexivity.
  - reflexivity.
  - reflexivity.
Defined.

Lemma resolve_content_root_follows_home_witness :
  ∃ G w', resolve sample_validators sample_host
            (with_files None None (Some (Json (DObject sample_loaded))))
          = (Ok G, w') ∧
          ∃ h, settings G !! "home" = Some (VStr h) ∧
               settings G !! "content_root" = Some (VStr (path_join h "content")).
Proof.
  eexists _, _. split; [vm_compute; reflexivity|].
  eapply (resolve_content_root_follows_home sample_validators sample_host
            (with_files None None (Some (Json (DObject sample_loaded))))).
  - vm_compute. reflexivity.
  - reflexivity.
  - reflexivity.
Defined.

Lemma resolve_invalid_system_username_witness :
  ∃ G w', resolve sample_validators sample_host
            (with_files (Some ("nobody" +:+ nl)) None
                        (Some (Json (DObject sample_loaded))))
          = (Ok G, w') ∧
          DEFAULT_USER G = "alice" ∧ DEFAULT_PORT G = 8008 ∧
          settings G !! "user" = Some (VStr "alice").
Proof.
  eexists _, _. split; [vm_compute; reflexivity|].
  eapply (resolve_invalid_system_username sample_validators sample_host
            (with_files (Some ("nobody" +:+ nl)) None
                        (Some (Json (DObject sample_loaded))))).
  - reflexivity.
  - simpl. discriminate.
  - reflexivity.
  - vm_compute. reflexivity.
Defined.

(** ** The tokens of a logical command *)

Lemma split_char_not_nil (c : ascii) (s : string) : split_char c s ≠ [].
Proof.
  induction s as [|a s IH]; [done|]. simpl.
  destruct (Ascii.eqb a c); [done|]. by destruct (split_char c s).
Qed.

Lemma join_cons_char (sep : string) (a : ascii) (h : string) (t : list string) :
  join sep (String a h :: t) = String a (join sep (h :: t)).
Proof. by destruct t. Qed.

(** [" ".join(s.split(" "))] is [s]. *)
Lemma join_split_char (s : string) : join " " (split_char " " s) = s.
Proof.
  induction s as [|a s IH]; [done|]. cbn [split_char].
  destruct (Ascii.eqb a " ") eqn:Ha.
  - apply Ascii.eqb_eq in Ha as ->.
    pose proof (split_char_not_nil " " s) as Hne.
    destruct (split_char " " s) as [|h t]; [done|].
    change (join " " ("" :: h :: t)) with (" " +:+ join " " (h :: t)).
    by rewrite IH.
  - pose proof (split_char_not_nil " " s) as Hne.
    destruct (split_char " " s) as [|h t]; [done|].
    by rewrite join_cons_char, IH.
Qed.

Lemma split_char_no_separator (c : ascii) (s : string) :
  Forall (λ token, forallb_str (λ a, negb (Ascii.eqb a c)) token = true)
         (split_char c s).
Proof.
  induction s as [|a s IH]; [by repeat constructor|]. cbn [split_char].
  destruct (Ascii.eqb a c) eqn:Ha; [by constructor|].
  pose proof (split_char_not_nil c s) as Hne.
  destruct (split_char c s) as [|h t]; [done|].
  apply Forall_cons in IH as [Hh Ht]. constructor; [|done].
  simpl. by rewrite Ha, Hh.
Qed.

(** X12: [get_command] puts the managed binary in front of the tokens of the
    logical command: the tokens hold no space, and joined by single spaces
    they are the logical command again, empty tokens included. *)
Theorem get_command_tokens (G : Globals) (kalite_command : string) (w : World)
    (binary : value) :
  settings G !! "command" = Some binary →
  ∃ tokens,
    get_command G kalite_command w = (Ok (binary :: map VStr tokens), w) ∧
    join " " tokens = kalite_command ∧
    Forall (λ token, forallb_str (λ a, negb (Ascii.eqb a " ")) token = true) tokens.
Proof.
  intros Hc. exists (split_char " " kalite_command). split; [|split].
  - unfold get_command, bind, subscript. by rewrite Hc.
  - apply join_split_char.
  - apply split_char_no_separator.
Qed.

Lemma get_command_tokens_witness :
  ∃ tokens,
    get_command sample_globals "start  --foreground" fresh_world
    = (Ok (VStr "/usr/bin/kalite" :: map VStr tokens), fresh_world) ∧
    join " " tokens = "start  --foreground" ∧
    Forall (λ token, forallb_str (λ a, negb (Ascii.eqb a " ")) token = true) tokens.
Proof.
  apply (get_command_tokens sample_globals "start  --foreground" fresh_world
           (VStr "/usr/bin/kalite")).
  reflexivity.
Defined.

(** ** Switching the user *)

Lemma append_nil_r (s : string) : s +:+ "" = s.
Proof.
  induction s as [|a s IH]; [done|].
  change (String a (s +:+ "") = String a s). congruence.
Qed.

Lemma append_assoc (a b c : string) : (a +:+ b) +:+ c = a +:+ b +:+ c.
Proof.
  induction a as [|x a IH]; [done|].
  change (String x ((a +:+ b) +:+ c) = String x (a +:+ b +:+ c)). congruence.
Qed.

Lemma is_plain_inv (c : ascii) :
  Shlex.is_plain c = true →
  Shlex.is_whitespace c = false ∧ Shlex.is_quote c = false ∧
  Shlex.is_escape c = false.
Proof.
  unfold Shlex.is_plain.
  intros [[Hw Hq]%andb_true_iff He]%andb_true_iff.
  by rewrite !negb_true_iff in *.
Qed.

(** Plain characters only lengthen the word being read. *)
Lemma read_word_plain (u rest : string) :
  ∀ (quoted : bool) (token : string),
    forallb_str Shlex.is_plain u = true →
    Shlex.read Shlex.Word quoted token (u +:+ rest)
    = Shlex.read Shlex.Word quoted (token +:+ u) rest.
Proof.
  induction u as [|c u IH]; intros quoted token Hu.
  - by rewrite append_nil_r.
  - simpl in Hu. apply andb_true_iff in Hu as [Hc Hu].
    destruct (is_plain_inv c Hc) as (Hw & Hq & He).
    change (String c u +:+ rest) with (String c (u +:+ rest)).
    cbn [Shlex.read]. rewrite Hw, Hq, He, IH by done.
    unfold Shlex.push. by rewrite append_assoc.
Qed.

(** From between two tokens, a plain word that ends the text is its last
    token. *)
Lemma read_blank_plain (u : string) :
  u ≠ "" → forallb_str Shlex.is_plain u = true →
  Shlex.read Shlex.Blank false "" u = Some [u].
Proof.
  intros Hne Hu. destruct u as [|c u]; [done|].
  simpl in Hu. apply andb_true_iff in Hu as [Hc Hu].
  destruct (is_plain_inv c Hc) as (Hw & Hq & He).
  cbn [Shlex.read String.eqb negb orb]. rewrite Hw, Hq, He.
  rewrite <- (append_nil_r u) at 1. rewrite read_word_plain by done.
  reflexivity.
Qed.

(** Inside an apostrophe quotation that is never closed. *)
Lemma read_open_quotation (b : string) :
  ∀ (quoted : bool) (token : string),
    forallb_str Shlex.is_plain b = true →
    Shlex.read (Shlex.Quote "'") quoted token b = None.
Proof.
  induction b as [|c b IH]; intros quoted token Hb; [done|].
  simpl in Hb. apply andb_true_iff in Hb as [Hc Hb].
  destruct (is_plain_inv c Hc) as (Hw & Hq & He).
  cbn [Shlex.read]. rewrite He.
  assert (Ascii.eqb c "'" = false) as ->.
  { unfold Shlex.is_quote in Hq. by apply orb_false_iff in Hq as [-> _]. }
  cbn [andb]. by apply IH.
Qed.

Lemma format_su_command (host : Host) (name : string) :
  format_username (SU_COMMAND host) name
  = (if find_pkexec host then "pkexec --user " else "gksudo -u ") +:+ name.
Proof.
  unfold SU_COMMAND. destruct (find_pkexec host); simpl; by rewrite append_nil_r.
Qed.

Section SwitchUser.

Context (host : Host) (G : Globals).

(** For a target user other than the invoking user, whose name is not empty
    and holds no white space, quote or backslash, [conditional_sudo] puts
    the user switch of the mechanism in front of the command. *)
Theorem conditional_sudo_plain_user (cmd : list value) (u : string) (w : World) :
  settings G !! "user" = Some (VStr u) →
  u ≠ getuser host →
  u ≠ "" →
  forallb_str Shlex.is_plain u = true →
  conditional_sudo host G cmd w
  = (Returns ((if find_pkexec host
               then [VStr "pkexec"; VStr "--user"; VStr u]
               else [VStr "gksudo"; VStr "-u"; VStr u]) ++ cmd)%list, w).
Proof.
  intros Huser Hne Hnonempty Hplain.
  unfold conditional_sudo, op_bind, lift, subscript. rewrite Huser. cbn [ret eq_str].
  apply String.eqb_neq in Hne. rewrite Hne. cbn [negb py_str].
  rewrite format_su_command.
  destruct (find_pkexec host).
  - assert (Shlex.split ("pkexec --user " +:+ u) = Some ["pkexec"; "--user"; u]) as ->;
      [|done].
    unfold Shlex.split. simpl. by rewrite read_blank_plain.
  - assert (Shlex.split ("gksudo -u " +:+ u) = Some ["gksudo"; "-u"; u]) as ->;
      [|done].
    unfold Shlex.split. simpl. by rewrite read_blank_plain.
Qed.

(** X13: A target user with one apostrophe in its name cannot be switched to:
    [shlex.split] finds no closing quotation and [conditional_sudo] raises
    [ValueError]. *)
Theorem conditional_sudo_apostrophe (cmd : list value) (a b : string) (w : World) :
  settings G !! "user" = Some (VStr (a +:+ "'" +:+ b)) →
  a +:+ "'" +:+ b ≠ getuser host →
  forallb_str Shlex.is_plain a = true →
  forallb_str Shlex.is_plain b = true →
  conditional_sudo host G cmd w = (Raises ValueError, w).
Proof.
  intros Huser Hne Ha Hb.
  unfold conditional_sudo, op_bind, lift, subscript. rewrite Huser. cbn [ret eq_str].
  apply String.eqb_neq in Hne. rewrite Hne. cbn [negb py_str].
  rewrite format_su_command.
  assert (∀ quoted token,
            Shlex.read Shlex.Blank quoted token (a +:+ "'" +:+ b) = None
            ∨ token ≠ "") as Hblank.
  { intros quoted token. destruct token; [left|by right].
    destruct a as [|c a].
    - simpl. by apply read_open_quotation.
    - simpl in Ha. apply andb_true_iff in Ha as [Hc Ha].
      destruct (is_plain_inv c Hc) as (Hw & Hq & He).
      change (String c a +:+ "'" +:+ b) with (String c (a +:+ "'" +:+ b)).
      cbn [Shlex.read String.eqb negb orb]. rewrite Hw, Hq, He.
      destruct quoted; rewrite read_word_plain by done;
        simpl; by apply read_open_quotation. }
  destruct (find_pkexec host).
  - assert (Shlex.split ("pkexec --user " +:+ a +:+ "'" +:+ b) = None) as ->; [|done].
    unfold Shlex.split. simpl.
    change ("" +:+ a +:+ "'" +:+ b) with (a +:+ "'" +:+ b).
    by destruct (Hblank false "") as [->|?].
  - assert (Shlex.split ("gksudo -u " +:+ a +:+ "'" +:+ b) = None) as ->; [|done].
    unfold Shlex.split. simpl.
    change ("" +:+ a +:+ "'" +:+ b) with (a +:+ "'" +:+ b).
    by destruct (Hblank false "") as [->|?].
Qed.

End SwitchUser.

(** ** The operations on the managed service *)

Section Service.

Context (host : Host) (G : Globals).

(** Building the argument vector changes nothing in the world. *)
Lemma operation_argv_world (op : operation) (w : World) :
  (operation_argv host G op w).2 = w.
Proof.
  unfold operation_argv, conditional_sudo, get_command, op_bind, lift, bind,
    subscript, ret, raise, op_ret, op_raise.
  destruct op; repeat (case_match; simplify_eq/=); done.
Qed.

(** The argument vector when no user switch is needed. *)
Lemma operation_argv_same_user (op : operation) (binary port : value)
    (w : World) :
  settings G !! "command" = Some binary →
  settings G !! "port" = Some port →
  settings G !! "user" = Some (VStr (getuser host)) →
  operation_argv host G op w
  = (Returns match op with
             | Start => [binary; VStr "start"; VStr ("--port=" +:+ py_str port)]
             | Stop => [binary; VStr "stop"]
             | Restart => [binary; VStr "restart"; VStr ("--port=" +:+ py_str port)]
             end, w).
Proof.
  intros Hc Hp Hu.
  unfold operation_argv, conditional_sudo, get_command, op_bind, lift, bind,
    subscript.
  rewrite Hc, Hu, ?Hp. cbn [ret eq_str]. rewrite String.eqb_refl.
  by destruct op.
Qed.

(** X14: For the invoking user the argument vector is the managed binary, the
    subcommand and, for [start] and [restart], the port option; no user
    switch is put in front. *)
Theorem operation_argv_invoking_user (op : operation) (binary port : value)
    (w : World) :
  settings G !! "command" = Some binary →
  settings G !! "port" = Some port →
  settings G !! "user" = Some (VStr (getuser host)) →
  operation_argv host G op w
  = (Returns match op with
             | Start => [binary; VStr "start"; VStr ("--port=" +:+ py_str port)]
             | Stop => [binary; VStr "stop"]
             | Restart => [binary; VStr "restart"; VStr ("--port=" +:+ py_str port)]
             end, w).
Proof. apply operation_argv_same_user. Qed.

(** X15: For another target user, with a plain name, the same vector comes after
    the user switch of the mechanism. *)
Theorem operation_argv_other_user (op : operation) (binary port : value)
    (u : string) (w : World) :
  settings G !! "command" = Some binary →
  settings G !! "port" = Some port →
  settings G !! "user" = Some (VStr u) →
  u ≠ getuser host →
  u ≠ "" →
  forallb_str Shlex.is_plain u = true →
  operation_argv host G op w
  = (Returns ((if find_pkexec host
               then [VStr "pkexec"; VStr "--user"; VStr u]
               else [VStr "gksudo"; VStr "-u"; VStr u])
              ++ match op with
                 | Start => [binary; VStr "start"; VStr ("--port=" +:+ py_str port)]
                 | Stop => [binary; VStr "stop"]
                 | Restart => [binary; VStr "restart"; VStr ("--port=" +:+ py_str port)]
                 end)%list, w).
Proof.
  intros Hc Hp Hu Hne Hnonempty Hplain.
  unfold operation_argv, get_command, op_bind at 1 2, lift, bind, subscript.
  rewrite Hc, ?Hp. cbn [ret].
  destruct op; cbn [app map split_char]; unfold op_bind; rewrite ?Hp;
    by rewrite (conditional_sudo_plain_user host G _ u w Hu Hne Hnonempty Hplain).
Qed.

Lemma relay_drain_relaying (fuel : nat) :
  ∀ (g : generator) (w : World),
    relay_drain host G fuel (Relaying g) w = lift (drain host G fuel g) w.
Proof.
  induction fuel as [|fuel IH]; intros g w; [done|].
  cbn [relay_drain drain relay_next]. unfold op_bind, lift, bind.
  destruct (next host G g w) as [[[[x|] g']|e] w1]; cbn; [|done|done].
  rewrite IH. unfold lift.
  by destruct (drain host G fuel g' w1) as [[rest|e] w2].
Qed.

(** X16: [start], [stop] and [restart] add nothing to the stream and take
    nothing from it: draining one of them gives what draining
    [stream_kalite_command] gives on its argument vector, tuple for tuple,
    with the same effect on the world. *)
Theorem relay_drain_unstarted (op : operation) (fuel : nat) (cmd : list value)
    (w : World) :
  operation_argv host G op w = (Returns cmd, w) →
  relay_drain host G fuel (Unstarted op) w
  = lift (drain host G fuel (Created cmd false)) w.
Proof.
  intros Hcmd. rewrite <- relay_drain_relaying.
  destruct fuel as [|fuel]; [done|].
  cbn [relay_drain relay_next]. unfold op_bind at 1 2. rewrite Hcmd.
  unfold op_bind at 3. reflexivity.
Qed.

(** An argument vector that holds something else than strings is refused by
    the [Popen] call, after the debug record and before anything is
    spawned. *)
Lemma next_created_not_strings (cmd : list value) (shell : bool) (home : value)
    (w : World) :
  mapM (λ v, match v with VStr a => Some a | _ => None end) cmd = None →
  settings G !! "home" = Some home →
  next host G (Created cmd shell) w
  = (Raise TypeError,
     logged [LogRecord DEBUG "Streaming command: {}, KALITE_HOME={}"
               [LogArgv cmd; LogText (py_str home)]] w).
Proof.
  intros Hcmd Hh. unfold next, spawn, bind, subscript.
  rewrite Hh. cbn [ret logger]. by rewrite Hcmd.
Qed.

Lemma run_kalite_command_not_strings (cmd : list value) (shell : bool)
    (home : value) (w : World) :
  mapM (λ v, match v with VStr a => Some a | _ => None end) cmd = None →
  settings G !! "home" = Some home →
  run_kalite_command host G cmd shell w
  = (Raise TypeError,
     logged [LogRecord DEBUG "Running command: {}, KALITE_HOME={}"
               [LogArgv cmd; LogText (py_str home)]] w).
Proof.
  intros Hcmd Hh. unfold run_kalite_command, spawn, bind, subscript.
  rewrite Hh. cbn [ret logger]. by rewrite Hcmd.
Qed.

(** X17: When the managed binary was not found, the streaming operations fail
    only at the [Popen] call of their first [next], with [TypeError], and
    nothing is spawned. *)
Theorem relay_next_absent_binary (op : operation) (port home : value) (w : World) :
  settings G !! "command" = Some VNone →
  settings G !! "port" = Some port →
  settings G !! "user" = Some (VStr (getuser host)) →
  settings G !! "home" = Some home →
  (relay_next host G (Unstarted op) w).1 = Raises (Exn TypeError) ∧
  spawned (relay_next host G (Unstarted op) w).2 = spawned w.
Proof.
  intros Hc Hp Hu Hh.
  unfold relay_next, op_bind.
  rewrite (operation_argv_same_user op VNone port w Hc Hp Hu).
  unfold lift. rewrite (next_created_not_strings _ _ home); [done | | done].
  by destruct op.
Qed.

(** X18: When the managed binary was not found, [diagnose] and [status] fail at
    the [Popen] call, with [TypeError], and nothing is spawned. *)
Theorem blocking_absent_binary (home : value) (w : World) :
  settings G !! "command" = Some VNone →
  settings G !! "home" = Some home →
  (diagnose host G w).1 = Raise TypeError ∧
  spawned (diagnose host G w).2 = spawned w ∧
  (status host G w).1 = Raise TypeError ∧
  spawned (status host G w).2 = spawned w.
Proof.
  intros Hc Hh.
  unfold diagnose, status, get_command, bind, subscript.
  rewrite Hc. cbn [ret].
  by rewrite !(run_kalite_command_not_strings _ _ home).
Qed.

(** The blocking run on a child that can be spawned. *)
Lemma run_kalite_command_ok (args : list string) (shell : bool)
    (h : string) (child : process) (w : World) :
  settings G !! "home" = Some (VStr h) →
  popen host (Invocation args h shell) = Some child →
  (run_kalite_command host G (map VStr args) shell w).1
  = Ok (p_stdout child, p_stderr child, Some (p_status child)) ∧
  spawned (run_kalite_command host G (map VStr args) shell w).2
  = (spawned w ++ [Invocation args h shell])%list ∧
  log (run_kalite_command host G (map VStr args) shell w).2
  = (log w ++ [LogRecord DEBUG "Running command: {}, KALITE_HOME={}"
                 [LogArgv (map VStr args); LogText h]])%list.
Proof.
  intros Hh Hchild.
  unfold run_kalite_command, spawn, bind, subscript.
  rewrite Hh. cbn [ret logger py_str]. rewrite mapM_strings.
  cbn [record_spawn]. rewrite Hchild. done.
Qed.

(** X19: The blocking run returns what the child wrote and its exit status,
    after one debug record and one spawn with [KALITE_HOME] set to the
    resolved home. *)
Theorem run_kalite_command_result (args : list string) (shell : bool)
    (h : string) (child : process) (w : World) :
  settings G !! "home" = Some (VStr h) →
  popen host (Invocation args h shell) = Some child →
  (run_kalite_command host G (map VStr args) shell w).1
  = Ok (p_stdout child, p_stderr child, Some (p_status child)) ∧
  spawned (run_kalite_command host G (map VStr args) shell w).2
  = (spawned w ++ [Invocation args h shell])%list ∧
  log (run_kalite_command host G (map VStr args) shell w).2
  = (log w ++ [LogRecord DEBUG "Running command: {}, KALITE_HOME={}"
                 [LogArgv (map VStr args); LogText h]])%list.
Proof. apply run_kalite_command_ok. Qed.

(** The blocking run on a child that cannot be spawned. *)
Lemma run_kalite_command_oserror (args : list string) (shell : bool)
    (h : string) (w : World) :
  settings G !! "home" = Some (VStr h) →
  popen host (Invocation args h shell) = None →
  (run_kalite_command host G (map VStr args) shell w).1 = Raise OSError ∧
  spawned (run_kalite_command host G (map VStr args) shell w).2
  = (spawned w ++ [Invocation args h shell])%list.
Proof.
  intros Hh Hchild.
  unfold run_kalite_command, spawn, bind, subscript.
  rewrite Hh. cbn [ret logger py_str]. rewrite mapM_strings.
  cbn [record_spawn]. rewrite Hchild. done.
Qed.

(** X20: When the child cannot be spawned the blocking run raises [OSError];
    the attempt is on record. *)
Theorem run_kalite_command_spawn_failure (args : list string) (shell : bool)
    (h : string) (w : World) :
  settings G !! "home" = Some (VStr h) →
  popen host (Invocation args h shell) = None →
  (run_kalite_command host G (map VStr args) shell w).1 = Raise OSError ∧
  spawned (run_kalite_command host G (map VStr args) shell w).2
  = (spawned w ++ [Invocation args h shell])%list.
Proof. apply run_kalite_command_oserror. Qed.

(** X21: [status] runs [<binary> status], never escalated, and returns the
    stderr text and the exit status of the child; the stdout is dropped. *)
Theorem status_result (binary h : string) (child : process) (w : World) :
  settings G !! "command" = Some (VStr binary) →
  settings G !! "home" = Some (VStr h) →
  popen host (Invocation [binary; "status"] h false) = Some child →
  (status host G w).1 = Ok (p_stderr child, Some (p_status child)) ∧
  spawned (status host G w).2
  = (spawned w ++ [Invocation [binary; "status"] h false])%list.
Proof.
  intros Hc Hh Hchild.
  destruct (run_kalite_command_ok [binary; "status"] false h child w Hh Hchild)
    as (Hres & Hsp & _).
  destruct (run_kalite_command host G (map VStr [binary; "status"]) false w)
    as [[[[out err] code]|e] w1] eqn:Hrun; simpl in Hres, Hsp; [|done].
  assert (status host G w = (Ok (err, code), w1)) as ->.
  { unfold status, get_command, bind, subscript. rewrite Hc. cbn [ret].
    change (VStr binary :: map VStr (split_char " " "status"))
      with (map VStr [binary; "status"]).
    by rewrite Hrun. }
  by simplify_eq.
Qed.

(** X22: [install] and [remove] are escalated whoever the target user is: each
    spawns one command headed by the escalation mechanism. *)
Theorem install_remove_escalated (h : string) (w : World) :
  settings G !! "home" = Some (VStr h) →
  spawned (install host G w).2
  = (spawned w ++ [Invocation [SUDO_COMMAND host; "bash"; "-c";
                               "update-rc.d ka-lite defaults"] h false])%list ∧
  spawned (remove host G w).2
  = (spawned w ++ [Invocation [SUDO_COMMAND host; "update-rc.d"; "-f";
                               "ka-lite"; "remove"] h false])%list.
Proof.
  intros Hh. split.
  - unfold install. rewrite sudo_prefix.
    change (VStr (SUDO_COMMAND host)
            :: [VStr "bash"; VStr "-c"; VStr "update-rc.d ka-lite defaults"])
      with (map VStr [SUDO_COMMAND host; "bash"; "-c"; "update-rc.d ka-lite defaults"]).
    destruct (popen host (Invocation [SUDO_COMMAND host; "bash"; "-c";
                                      "update-rc.d ka-lite defaults"] h false))
      as [child|] eqn:Hchild.
    + by destruct (run_kalite_command_ok _ _ _ _ w Hh Hchild) as (_ & -> & _).
    + by destruct (run_kalite_command_oserror _ _ _ w Hh Hchild) as (_ & ->).
  - unfold remove.
    change (Shlex.split "update-rc.d -f ka-lite remove")
      with (Some ["update-rc.d"; "-f"; "ka-lite"; "remove"]).
    cbv beta iota. rewrite sudo_prefix.
    change (VStr (SUDO_COMMAND host) :: map VStr ["update-rc.d"; "-f"; "ka-lite"; "remove"])
      with (map VStr [SUDO_COMMAND host; "update-rc.d"; "-f"; "ka-lite"; "remove"]).
    unfold lift.
    destruct (popen host (Invocation [SUDO_COMMAND host; "update-rc.d"; "-f";
                                      "ka-lite"; "remove"] h false))
      as [child|] eqn:Hchild.
    + destruct (run_kalite_command_ok _ _ _ _ w Hh Hchild) as (Hres & Hsp & _).
      destruct (run_kalite_command host G _ false w) as [[r|e] w1]; by simpl in *.
    + destruct (run_kalite_command_oserror _ _ _ w Hh Hchild) as (Hres & Hsp).
      destruct (run_kalite_command host G _ false w) as [[r|e] w1]; by simpl in *.
Qed.

End Service.

(** ** Streaming any output *)



Section StreamingAny.

Context (host : Host) (G : Globals).



End StreamingAny.

(** ** The shape of the mined URLs *)

Lemma take_while_forall (p : ascii → bool) (s : string) :
  forallb_str p (take_while p s) = true.
Proof.
  induction s as [|a s IH]; [done|]. simpl.
  destruct (p a) eqn:Hp; [|done]. simpl. by rewrite Hp.
Qed.

Lemma match_url_shape (s u : string) :
  match_url s = Some u →
  String.prefix "http://" u = true ∧ no_space u ∧ (7 < String.length u)%nat.
Proof.
  unfold match_url. destruct (String.prefix "http://" s); [|done].
  pose proof (take_while_forall (λ c, negb (is_space c)) (PyStr.drop 7 s)) as Hall.
  destruct (take_while _ (PyStr.drop 7 s)) as [|c body]; [done|].
  intros [= <-]. split; [done|]. split; [|simpl; lia].
  unfold no_space. exact Hall.
Qed.

Lemma search_url_match (s u : string) :
  search_url s = Some u → ∃ t, match_url t = Some u.
Proof.
  induction s as [|a s IH]; cbn [search_url].
  - destruct (match_url "") eqn:Hm; [|done]. intros [= <-]. by eexists.
  - destruct (match_url (String a s)) eqn:Hm; [|done].
    intros [= <-]. by eexists.
Qed.

(** X24: Every URL that [get_urls_from_status] yields starts with [http://],
    goes on for at least one more character and holds no white space; and
    URLs are yielded only for the return code 0. *)
Theorem get_urls_from_status_shape (msg : string) (return_code : Z) (u : string) :
  u ∈ get_urls_from_status msg return_code →
  return_code = 0 ∧ String.prefix "http://" u = true ∧ no_space u ∧
  (7 < String.length u)%nat.
Proof.
  unfold get_urls_from_status.
  destruct (Z.eqb_spec return_code 0) as [->|Hne]; simpl;
    [|by intros ?%elem_of_nil].
  intros (token & Htoken & Hsearch)%list_elem_of_omap.
  apply search_url_match in Hsearch as [t Hmatch].
  split; [done|]. by apply (match_url_shape t).
Qed.

Lemma get_urls_from_status_shape_witness :
  0 = 0 ∧ String.prefix "http://" "http://127.0.0.1:8008/" = true ∧
  no_space "http://127.0.0.1:8008/" ∧
  (7 < String.length "http://127.0.0.1:8008/")%nat.
Proof.
  apply (get_urls_from_status_shape
           "Server running at http://127.0.0.1:8008/ and at http://[::1]:8008/" 0).
  apply list_elem_of_In. simpl. tauto.
Defined.

(** ** More on saving *)



Section MoreSaving.

Context (host : Host) (G : Globals).





(** When the escalation mechanism cannot be spawned, [save_settings]
    raises [OSError]. *)
Theorem save_settings_spawn_failure (w : World) (port : value) :
  settings G !! "user" = Some (VStr (DEFAULT_USER G)) →
  settings G !! "port" = Some port →
  eq_int port (DEFAULT_PORT G) = true →
  settings G !! "home" = Some (VStr (DEFAULT_HOME G)) →
  popen host (Invocation [SUDO_COMMAND host; "bash"; "-c"; ""]
                         (DEFAULT_HOME G) false) = None →
  (save_settings host G w).1 = Raise OSError.
Proof.
  intros Huser Hport Heq Hhome Hchild.
  unfold save_settings, save_debian_settings, run_kalite_command, spawn,
    bind, write_user_settings, subscript.
  rewrite Huser, Hport, Hhome. simpl.
  rewrite Heq, !String.eqb_refl. simpl.
  rewrite sudo_prefix. simpl. by rewrite Hchild.
Qed.


End MoreSaving.


(** ** The operations on the sample machines *)

Lemma conditional_sudo_apostrophe_witness :
  conditional_sudo sample_host (set_setting "user" (VStr "o'brien") sample_globals)
    [VStr "/usr/bin/kalite"; VStr "stop"] fresh_world
  = (Raises ValueError, fresh_world).
Proof.
  apply (conditional_sudo_apostrophe sample_host
           (set_setting "user" (VStr "o'brien") sample_globals)
           [VStr "/usr/bin/kalite"; VStr "stop"] "o" "brien" fresh_world).
  - reflexivity.
  - simpl. discriminate.
  - reflexivity.
  - reflexivity.
Defined.

Lemma operation_argv_invoking_user_witness :
  operation_argv sample_host sample_globals Start fresh_world
  = (Returns [VStr "/usr/bin/kalite"; VStr "start";
              VStr ("--port=" +:+ py_str (VInt 8008))], fresh_world).
Proof.
  apply (operation_argv_invoking_user sample_host sample_globals Start
           (VStr "/usr/bin/kalite") (VInt 8008) fresh_world); reflexivity.
Defined.

Lemma operation_argv_other_user_witness :
  operation_argv sample_host kalite_globals Stop fresh_world
  = (Returns ([VStr "pkexec"; VStr "--user"; VStr "kalite"]
              ++ [VStr "/usr/bin/kalite"; VStr "stop"])%list, fresh_world).
Proof.
  apply (operation_argv_other_user sample_host kalite_globals Stop
           (VStr "/usr/bin/kalite") (VInt 8008) "kalite" fresh_world);
    try reflexivity; simpl; discriminate.
Defined.

Lemma relay_drain_unstarted_witness :
  relay_drain sample_host sample_globals 4 (Unstarted Restart) fresh_world
  = lift (drain sample_host sample_globals 4
            (Created [VStr "/usr/bin/kalite"; VStr "restart"; VStr "--port=8008"]
                     false)) fresh_world.
Proof.
  apply (relay_drain_unstarted sample_host sample_globals Restart 4
           [VStr "/usr/bin/kalite"; VStr "restart"; VStr "--port=8008"] fresh_world).
  reflexivity.
Defined.

Lemma relay_next_absent_binary_witness :
  (relay_next bare_host bare_globals (Unstarted Start) fresh_world).1
  = Raises (Exn TypeError) ∧
  spawned (relay_next bare_host bare_globals (Unstarted Start) fresh_world).2 = [].
Proof.
  apply (relay_next_absent_binary bare_host bare_globals Start (VInt 8008)
           (VStr "/home/alice/.kalite") fresh_world); reflexivity.
Defined.

Lemma blocking_absent_binary_witness :
  (diagnose bare_host bare_globals fresh_world).1 = Raise TypeError ∧
  spawned (diagnose bare_host bare_globals fresh_world).2 = [] ∧
  (status bare_host bare_globals fresh_world).1 = Raise TypeError ∧
  spawned (status bare_host bare_globals fresh_world).2 = [].
Proof.
  apply (blocking_absent_binary bare_host bare_globals
           (VStr "/home/alice/.kalite") fresh_world); reflexivity.
Defined.

Lemma run_kalite_command_result_witness :
  (run_kalite_command sample_host sample_globals
     (map VStr ["/usr/bin/kalite"; "diagnose"]) false fresh_world).1
  = Ok (p_stdout sample_child, p_stderr sample_child, Some (p_status sample_child)) ∧
  spawned (run_kalite_command sample_host sample_globals
             (map VStr ["/usr/bin/kalite"; "diagnose"]) false fresh_world).2
  = ([] ++ [Invocation ["/usr/bin/kalite"; "diagnose"] "/home/alice/.kalite" false])%list ∧
  log (run_kalite_command sample_host sample_globals
         (map VStr ["/usr/bin/kalite"; "diagnose"]) false fresh_world).2
  = ([] ++ [LogRecord DEBUG "Running command: {}, KALITE_HOME={}"
              [LogArgv (map VStr ["/usr/bin/kalite"; "diagnose"]);
               LogText "/home/alice/.kalite"]])%list.
Proof.
  apply (run_kalite_command_result sample_host sample_globals
           ["/usr/bin/kalite"; "diagnose"] false "/home/alice/.kalite"
           sample_child fresh_world); reflexivity.
Defined.

Lemma run_kalite_command_spawn_failure_witness :
  (run_kalite_command ghost_host sample_globals
     (map VStr ["/usr/bin/kalite"; "diagnose"]) false fresh_world).1
  = Raise OSError ∧
  spawned (run_kalite_command ghost_host sample_globals
             (map VStr ["/usr/bin/kalite"; "diagnose"]) false fresh_world).2
  = ([] ++ [Invocation ["/usr/bin/kalite"; "diagnose"] "/home/alice/.kalite" false])%list.
Proof.
  apply (run_kalite_command_spawn_failure ghost_host sample_globals
           ["/usr/bin/kalite"; "diagnose"] false "/home/alice/.kalite"
           fresh_world); reflexivity.
Defined.

Lemma status_result_witness :
  (status sample_host sample_globals fresh_world).1
  = Ok (p_stderr sample_child, Some (p_status sample_child)) ∧
  spawned (status sample_host sample_globals fresh_world).2
  = ([] ++ [Invocation ["/usr/bin/kalite"; "status"] "/home/alice/.kalite" false])%list.
Proof.
  apply (status_result sample_host sample_globals "/usr/bin/kalite"
           "/home/alice/.kalite" sample_child fresh_world); reflexivity.
Defined.

Lemma install_remove_escalated_witness :
  spawned (install sample_host kalite_globals fresh_world).2
  = ([] ++ [Invocation [SUDO_COMMAND sample_host; "bash"; "-c";
                        "update-rc.d ka-lite defaults"]
                       "/home/alice/.kalite" false])%list ∧
  spawned (remove sample_host kalite_globals fresh_world).2
  = ([] ++ [Invocation [SUDO_COMMAND sample_host; "update-rc.d"; "-f";
                        "ka-lite"; "remove"] "/home/alice/.kalite" false])%list.
Proof.
  apply (install_remove_escalated sample_host kalite_globals
           "/home/alice/.kalite" fresh_world).
  reflexivity.
Defined.






